(** * kloudlib: chart values built by the MetalLB, Grafana and NginxIngress
      components

    The three packages are Pulumi component resources whose constructors build
    a Helm values document from typed inputs.  This development embeds the
    values builders and states the properties of the documents they produce.

    Conventions of the embedding:
    - where the code hands a [pulumi.Input<T>] or a [pulumi.Output<T>] to
      Pulumi (the values of a chart, [pulumi.interpolate], [apply]) it is read
      at its resolved value, so [pulumi.output(x).apply(f)] is [f x] and
      [pulumi.interpolate] is string concatenation of the converted parts;
      where the code itself computes with an input (the comparison of the
      replica count, [toString] on the namespace) the input is a
      [Pulumi.Input], which tells a plain value from a Promise and an Output;
    - JavaScript numbers are integers ([Z]): replica counts, ports, sizes;
    - an optional field [x?: T] is an [optional T], which keeps [undefined]
      and [null] apart from a given value;
    - a values document is a [value]; an object is a finite map from property
      names to values, and reading a property that is missing yields
      [VUndefined], as reading one whose value is [undefined] does. *)

From Stdlib Require Import Ascii.
From stdpp Require Import gmap strings list fin_maps pretty.

Open Scope string_scope.
Open Scope Z_scope.

(** ** The fragment of JavaScript used by the packages *)
Module JS.

(** [x?: T]: left out ([undefined]), [null], or given. *)
Inductive optional (A : Type) : Type :=
| Undefined
| Null
| Given (a : A).
Arguments Undefined {A}.
Arguments Null {A}.
Arguments Given {A} a.

(** [x ?? d] *)
Definition nullish_or {A} (x : optional A) (d : A) : A :=
  match x with
  | Given a => a
  | _ => d
  end.

(** [x?.f] *)
Definition chain {A B} (x : optional A) (f : A → optional B) : optional B :=
  match x with
  | Given a => f a
  | _ => Undefined
  end.

(** [x === false] *)
Definition is_false (x : optional bool) : bool :=
  match x with
  | Given false => true
  | _ => false
  end.

#[warnings="-register-all"]
Inductive value : Type :=
| VUndefined
| VNull
| VBool (b : bool)
| VNum (n : Z)
| VStr (s : string)
| VArr (xs : list value)
| VObj (o : gmap string value).

(** The value of an optional field, given how to inject its content. *)
Definition of_optional {A} (inj : A → value) (x : optional A) : value :=
  match x with
  | Undefined => VUndefined
  | Null => VNull
  | Given a => inj a
  end.

(** [o[k] = v] for each entry in turn. *)
Definition assign {K A} `{Countable K}
    (o : gmap K A) (entries : list (K * A)) : gmap K A :=
  foldl (λ o '(k, v), <[k := v]> o) o entries.

(** An object literal [{ k1: v1, ..., kn: vn }]. *)
Definition obj (fields : list (string * value)) : value :=
  VObj (assign ∅ fields).

(** [{ ...o, ...src }]: the own properties of [src] are copied over [o];
    spreading [undefined] or [null] copies nothing. *)
Definition spread {A} (o : gmap string A) (src : optional (gmap string A))
    : gmap string A :=
  match src with
  | Given m => assign o (map_to_list m)
  | _ => o
  end.

(** [v[k]] (or [v.k]) on a value that is an object. *)
Definition get (k : string) (v : value) : value :=
  match v with
  | VObj o => default VUndefined (o !! k)
  | _ => VUndefined
  end.

(** [v.k1.k2...kn] *)
Definition get_path (ks : list string) (v : value) : value :=
  foldl (λ v k, get k v) v ks.

(** [xs[i]] on an array of strings. *)
Definition index (xs : list string) (i : nat) : value :=
  match xs !! i with
  | Some s => VStr s
  | None => VUndefined
  end.

(** The string conversion applied to each part of a template literal.
    Integers print in decimal. *)
Fixpoint ToString (v : value) : string :=
  match v with
  | VUndefined => "undefined"
  | VNull => "null"
  | VBool true => "true"
  | VBool false => "false"
  | VNum n => pretty n
  | VStr s => s
  | VArr xs =>
      String.concat ","
        (List.map (λ x, match x with
                        | VUndefined | VNull => ""
                        | _ => ToString x
                        end) xs)
  | VObj _ => "[object Object]"
  end.

End JS.
Import JS.

Notation "x ?? d" := (nullish_or x d) (at level 45, left associativity).
Notation "x ?> f" := (chain x f) (at level 41, left associativity).

(** ** @pulumi/pulumi, as far as the packages compute with its inputs *)
Module Pulumi.

(** [pulumi.Input<T>]: a plain [T], a [Promise<T>] or an [Output<T>]; the
    last two are objects, each with the value it resolves to. *)
Inductive Input (A : Type) : Type :=
| Plain (a : A)
| Promise (a : A)
| Output (a : A).
Arguments Plain {A} a.
Arguments Promise {A} a.
Arguments Output {A} a.

(** The value Pulumi reads when the input is part of the values of a chart. *)
Definition resolve {A} (x : Input A) : A :=
  match x with
  | Plain a | Promise a | Output a => a
  end.

(** [x <= n] on an [Input<number>].  A plain number is compared.  A Promise
    or an Output is an object: the comparison converts it through its
    [toString] text, a sentence and no numeral, to NaN, and every comparison
    with NaN is false. *)
Definition le (x : Input Z) (n : Z) : bool :=
  match x with
  | Plain a => a <=? n
  | Promise _ | Output _ => false
  end.




End Pulumi.

(** ** @kloudlib/metal-lb *)
Module MetalLB.

Inductive Protocol : Type := layer2.

Definition protocol_tag (p : Protocol) : string :=
  match p with
  | layer2 => "layer2"
  end.

Record AddressPool : Type := {
  name : string;
  protocol : Protocol;
  addresses : list string;
}.

(** [provider], a handle on the cluster, is left out here and in the inputs
    of the other two packages. *)
Record MetalLBInputs : Type := {
  namespace : optional string;
  version : optional string;
  addressPools : optional (list AddressPool);
}.

(** The arrow function mapped over [addressPools]. *)
Definition pool_entry (pool : AddressPool) : value :=
  obj [ ("name", VStr (name pool));
        ("protocol", VStr (protocol_tag (protocol pool)));
        ("addresses", VArr (VStr <$> addresses pool));
        ("avoid-buggy-ips", VBool true) ].

(** The [values] of the chart installed by the constructor. *)
Definition values (props : optional MetalLBInputs) : value :=
  obj [ ("configInline",
          obj [ ("address-pools",
                  of_optional VArr
                    (props ?> addressPools
                       ?> (λ pools, Given (pool_entry <$> pools)))) ]);
        ("prometheus", obj [ ("scrapeAnnotations", VBool true) ]) ].

End MetalLB.

(** ** @kloudlib/abstractions *)
Module Abstractions.

(** Modelled from the spec: the declaration of [abstractions.Ingress] is not
    among the sources.  The spec lists an enabled flag, an ingress class
    name, a TLS flag, the hostnames and a free-form annotation map; the
    Grafana constructor reads the fields [enabled], [class], [tls],
    [hosts] (indexed, so a list) and [annotations], each optional. *)
Module Ingress.
Record t : Type := {
  enabled : optional bool;
  class : optional string;
  tls : optional bool;
  hosts : optional (list string);
  annotations : optional (gmap string string);
}.
End Ingress.

(** Modelled from the spec: the declaration of [abstractions.Persistence] is
    not among the sources.  The spec lists an enabled flag, a size in
    gibibytes and a storage-class name; the Grafana constructor reads
    [enabled], [sizeGB] and [storageClass]. *)
Module Persistence.
Record t : Type := {
  enabled : optional bool;
  sizeGB : Z;
  storageClass : optional string;
}.
End Persistence.

End Abstractions.
Import Abstractions.

(** ** @pulumi/random, as far as the Grafana package uses it *)
Module Random.

Record RandomStringArgs : Type := {
  length : nat;
  special : bool;
}.

(** The provider behind [new random.RandomString(name, args)]: the [result]
    of the resource registered under [name].  The engine keeps the state of
    a resource under its name, so the provider is a function of it. *)
Class RandomProvider : Type :=
  RandomString : string → RandomStringArgs → string.

Definition is_upper (c : Ascii.ascii) : bool :=
  (65 <=? Ascii.nat_of_ascii c)%nat && (Ascii.nat_of_ascii c <=? 90)%nat.
Definition is_lower (c : Ascii.ascii) : bool :=
  (97 <=? Ascii.nat_of_ascii c)%nat && (Ascii.nat_of_ascii c <=? 122)%nat.
Definition is_digit (c : Ascii.ascii) : bool :=
  (48 <=? Ascii.nat_of_ascii c)%nat && (Ascii.nat_of_ascii c <=? 57)%nat.
Definition is_alphanumeric (c : Ascii.ascii) : bool :=
  is_upper c || is_lower c || is_digit c.

(** What the provider documents for [length] and [special]: the result has
    the requested length, and without [special] it is drawn from upper-case
    letters, lower-case letters and digits only. *)
Class RandomProviderContract `{RandomProvider} : Prop := {
  result_length : ∀ name args,
    String.length (RandomString name args) = length args;
  result_plain : ∀ name args,
    special args = false →
    forallb is_alphanumeric (String.list_ascii_of_string (RandomString name args)) = true;
}.

End Random.

(** ** @kloudlib/grafana *)
Module Grafana.

Module Dashboard.
(** [{ json } | { file } | { gnetId, revision?, datasource? }
     | { url, b64content? }] *)
Inductive Source : Type :=
| Json (json : string)
| File (file : string)
| Gnet (gnetId : Z) (revision : optional Z) (datasource : optional string)
| Url (url : string) (b64content : optional bool).

Record GrafanaDashboard : Type := {
  name : string;
  source : Source;
}.
End Dashboard.

Module DataSource.
Inductive Kind : Type := prometheus | loki.

Definition kind_tag (k : Kind) : string :=
  match k with
  | prometheus => "prometheus"
  | loki => "loki"
  end.

Record GrafanaDataSource : Type := {
  name : string;
  type : Kind;
  url : string;
}.
End DataSource.

Record GrafanaInputs : Type := {
  namespace : optional string;
  version : optional string;
  dashboards : optional (list Dashboard.GrafanaDashboard);
  datasources : optional (list DataSource.GrafanaDataSource);
  ingress : optional Ingress.t;
  persistence : optional Persistence.t;
}.

Definition adminUsername : string := "admin".

(** [password.result] of
    [new random.RandomString('grafana-admin-password',
                             { length: 32, special: false })]. *)
Definition adminPassword `{Random.RandomProvider} : string :=
  Random.RandomString "grafana-admin-password"
    {| Random.length := 32; Random.special := false |}.

(** The two entries written out in the [annotations] literal of the ingress
    block. *)
Definition computed_annotations (ing : Ingress.t) : gmap string string :=
  assign ∅
    [ ("kubernetes.io/ingress.class", Ingress.class ing ?? "nginx");
      ("kubernetes.io/tls-acme",
        if is_false (Ingress.tls ing) then "false" else "true") ].

(** The [annotations] object of the ingress block: the two computed
    entries, then [...props?.ingress.annotations] spread over them. *)
Definition ingress_annotations (ing : Ingress.t) : gmap string string :=
  spread (computed_annotations ing) (Ingress.annotations ing).

(** [values.ingress] *)
Definition ingress_block (name : string) (props : optional GrafanaInputs)
    : value :=
  match props ?> ingress with
  | Given ing =>
      obj [ ("enabled", VBool (Ingress.enabled ing ?? true));
            ("annotations", VObj (VStr <$> ingress_annotations ing));
            ("hosts", of_optional (λ hs, VArr (VStr <$> hs)) (Ingress.hosts ing));
            ("tls",
              VArr [ obj [ ("hosts",
                             of_optional (λ hs, VArr (VStr <$> hs))
                               (Ingress.hosts ing));
                           ("secretName", VStr ("tls-grafana-" +:+ name)) ] ]) ]
  | _ => obj [ ("enabled", VBool false) ]
  end.

(** [values.persistence] *)
Definition persistence_block (props : optional GrafanaInputs) : value :=
  match props ?> persistence with
  | Given p =>
      obj [ ("enabled", of_optional VBool (Persistence.enabled p));
            ("size", VStr (ToString (VNum (Persistence.sizeGB p)) +:+ "Gi"));
            ("storageClass", of_optional VStr (Persistence.storageClass p)) ]
  | _ => obj [ ("enabled", VBool false) ]
  end.

(** [values['grafana.ini'].server]: the callback applied to
    [props?.ingress?.hosts]; every given array, the empty one included,
    takes the second branch of [!hosts ? undefined : ...]. *)
Definition server (props : optional GrafanaInputs) : value :=
  match props ?> ingress ?> Ingress.hosts with
  | Given hosts =>
      obj [ ("domain", index hosts 0);
            ("root_url", VStr ("https://" +:+ ToString (index hosts 0))) ]
  | _ => VUndefined
  end.

Definition datasource_entry (datasource : DataSource.GrafanaDataSource) : value :=
  obj [ ("name", VStr (DataSource.name datasource));
        ("type", VStr (DataSource.kind_tag (DataSource.type datasource)));
        ("url", VStr (DataSource.url datasource));
        ("access", VStr "proxy");
        ("basicAuth", VBool false);
        ("editable", VBool false) ].

(** An optional field is an own property of the caller's object only when
    it was written. *)
Definition own {A} (k : string) (inj : A → value) (x : optional A)
    : list (string * value) :=
  match x with
  | Undefined => []
  | _ => [ (k, of_optional inj x) ]
  end.

(** [rest] of [const { name, ...rest } = curr]. *)
Definition rest (curr : Dashboard.GrafanaDashboard) : value :=
  match Dashboard.source curr with
  | Dashboard.Json json => obj [ ("json", VStr json) ]
  | Dashboard.File file => obj [ ("file", VStr file) ]
  | Dashboard.Gnet gnetId revision datasource =>
      obj ([ ("gnetId", VNum gnetId) ]
           ++ own "revision" VNum revision
           ++ own "datasource" VStr datasource)
  | Dashboard.Url url b64content =>
      obj ([ ("url", VStr url) ] ++ own "b64content" VBool b64content)
  end.

(** [values.dashboards]; every given array, the empty one included, takes
    the second branch of [!props?.dashboards ? undefined : ...]. *)
Definition dashboards_block (props : optional GrafanaInputs) : value :=
  match props ?> dashboards with
  | Given ds =>
      obj [ ("default",
              VObj (foldl (λ prev curr,
                             assign (spread ∅ (Given prev))
                               [ (Dashboard.name curr, rest curr) ])
                      ∅ ds)) ]
  | _ => VUndefined
  end.

(** [values.dashboardProviders] *)
Definition dashboardProviders_block (props : optional GrafanaInputs) : value :=
  match props ?> dashboards with
  | Given _ =>
      obj [ ("dashboardproviders.yaml",
              obj [ ("apiVersion", VNum 1);
                    ("providers",
                      VArr [ obj [ ("name", VStr "default");
                                   ("orgId", VNum 1);
                                   ("folder", VStr "");
                                   ("type", VStr "file");
                                   ("disableDeletion", VBool false);
                                   ("editable", VBool true);
                                   ("options",
                                     obj [ ("path",
                                             VStr "/var/lib/grafana/dashboards/default") ]) ] ]) ]) ]
  | _ => VUndefined
  end.

(** The [values] of the chart installed by the constructor. *)
Definition values `{Random.RandomProvider}
    (name : string) (props : optional GrafanaInputs) : value :=
  obj [ ("adminUser", VStr adminUsername);
        ("adminPassword", VStr adminPassword);
        ("ingress", ingress_block name props);
        ("deploymentStrategy", obj [ ("type", VStr "Recreate") ]);
        ("persistence", persistence_block props);
        ("testFramework", obj [ ("enabled", VBool false) ]);
        ("grafana.ini",
          obj [ ("server", server props);
                ("auth.anonymous",
                  obj [ ("enabled", VStr "true");
                        ("org_name", VStr "Main Org.");
                        ("org_role", VStr "Editor") ]);
                ("auth.basic", obj [ ("enabled", VStr "false") ]) ]);
        ("datasources",
          obj [ ("datasources.yaml",
                  obj [ ("apiVersion", VNum 1);
                        ("datasources",
                          match props ?> datasources with
                          | Given ds => VArr (datasource_entry <$> ds)
                          | _ => VArr []
                          end) ]) ]);
        ("dashboards", dashboards_block props);
        ("dashboardProviders", dashboardProviders_block props) ].

End Grafana.

(** ** lodash, as far as the NginxIngress package uses it *)
Module Lodash.

(** [merge(object, source1, source2)]. *)
Class Merge : Type :=
  merge : value → value → value → value.

(** What lodash documents for [merge]: the own properties of the sources are
    merged into the target recursively, source after source.  Two sources
    without a common key never meet, so on an empty target each property
    reads as in the source that has it. *)
Class MergeContract `{Merge} : Prop := {
  merge_apart : ∀ (s1 s2 : gmap string value) k,
    dom s1 ## dom s2 →
    get k (merge (obj []) (VObj s1) (VObj s2)) = get k (VObj (s1 ∪ s2));
}.

End Lodash.

(** ** @kloudlib/nginx-ingress *)
Module NginxIngress.

Record NginxIngressDeploymentMode : Type := {
  replicas : optional (Pulumi.Input Z);
  loadBalancerIP : optional string;
  serviceAnnotations : optional (gmap string string);
}.

(** [NginxIngressDeploymentMode | NginxIngressDaemonSetMode], told apart by
    their [kind]. *)
Inductive Mode : Type :=
| Deployment (m : NginxIngressDeploymentMode)
| DaemonSet.

Record L4ServiceBackend : Type := {
  namespace : string;
  serviceName : string;
  servicePort : Z;
}.

(** [namespace] is an argument of the chart resource; none of the functions
    below reads it. *)
Record NginxIngressInputs : Type := {
  version : optional string;
  mode : optional Mode;
  config : optional (gmap string string);
  tcpServices : optional (gmap Z L4ServiceBackend);
  udpServices : optional (gmap Z L4ServiceBackend);
  maxmindLicenseKey : optional string;
}.

Definition daemonSetValues : value :=
  obj [ ("kind", VStr "DaemonSet");
        ("reportNodeInternalIp", VBool true);
        ("service", obj [ ("enabled", VBool false) ]);
        ("daemonset", obj [ ("useHostPort", VBool true) ]) ].

Definition deploymentValues (props : NginxIngressDeploymentMode) : value :=
  let replicas := replicas props ?? Pulumi.Plain 1 in
  obj [ ("kind", VStr "Deployment");
        ("replicaCount", VNum (Pulumi.resolve replicas));
        ("service",
          obj [ ("type", VStr "LoadBalancer");
                ("loadBalancerIP", of_optional VStr (loadBalancerIP props));
                ("externalTrafficPolicy", VStr "Local");
                ("annotations",
                  of_optional (λ m, VObj (VStr <$> m)) (serviceAnnotations props)) ]);
        ("affinity",
          if Pulumi.le replicas 1 then VUndefined
          else
            obj [ ("podAntiAffinity",
                    obj [ ("preferredDuringSchedulingIgnoredDuringExecution",
                            VArr [ obj [ ("weight", VNum 1);
                                         ("podAffinityTerm",
                                           obj [ ("topologyKey", VStr "kubernetes.io/hostname");
                                                 ("labelSelector",
                                                   obj [ ("matchExpressions",
                                                           VArr [ obj [ ("key", VStr "app");
                                                                        ("operator", VStr "In");
                                                                        ("values", VArr [ VStr "nginx-ingress" ]) ];
                                                                  obj [ ("key", VStr "component");
                                                                        ("operator", VStr "In");
                                                                        ("values", VArr [ VStr "controller" ]) ] ]) ]) ]) ] ]) ]) ]) ].

Definition controllerValues (props : optional NginxIngressInputs) : value :=
  match props ?> mode with
  | Given DaemonSet => daemonSetValues
  | Given (Deployment m) => deploymentValues m
  | _ =>
      deploymentValues
        {| replicas := Given (Pulumi.Plain 1);
           loadBalancerIP := Undefined;
           serviceAnnotations := Undefined |}
  end.

(** The interpolated string
    [`${value.namespace}/${value.serviceName}:${value.servicePort}`]. *)
Definition locator (value : L4ServiceBackend) : string :=
  ToString (VStr (namespace value)) +:+ "/"
  +:+ ToString (VStr (serviceName value)) +:+ ":"
  +:+ ToString (VNum (servicePort value)).

(** [Object.entries(props)] lists the own entries of the table; a key of a
    [Record<number, _>] is the decimal string of a number, which
    [Number(key)] reads back, so the loop assigns under the key it read. *)
Definition l4Services (props : gmap Z L4ServiceBackend) : gmap Z string :=
  foldl (λ backends '(key, value), <[key := locator value]> backends)
    ∅ (map_to_list props).

(** [values.tcp] and [values.udp] *)
Definition tcp (props : optional NginxIngressInputs) : gmap Z string :=
  l4Services (props ?> tcpServices ?? ∅).
Definition udp (props : optional NginxIngressInputs) : gmap Z string :=
  l4Services (props ?> udpServices ?? ∅).

(** A [Record<number, string>] as a value: its property names are the
    decimal strings of the ports. *)
Definition ports_object (backends : gmap Z string) : value :=
  VObj (kmap (M2 := gmap string) pretty (VStr <$> backends)).

(** The last argument of the [merge] call in the constructor. *)
Definition controllerOverlay (props : optional NginxIngressInputs) : value :=
  obj [ ("config", of_optional (λ m, VObj (VStr <$> m)) (props ?> config));
        ("labels", obj [ ("app", VStr "nginx-ingress") ]);
        ("podLabels", obj [ ("app", VStr "nginx-ingress") ]);
        ("admissionWebhooks", obj [ ("enabled", VBool false) ]);
        ("metrics",
          obj [ ("enabled", VBool true);
                ("service",
                  obj [ ("type", VStr "ClusterIP");
                        ("servicePort", VNum 10254);
                        ("annotations",
                          obj [ ("prometheus.io/scrape", VStr "true");
                                ("prometheus.io/port", VStr "10254") ]) ]) ]);
        ("maxmindLicenseKey", of_optional VStr (props ?> maxmindLicenseKey)) ].

(** The [values] of the chart installed by the constructor. *)
Definition values `{Lodash.Merge}
    (name : string) (props : optional NginxIngressInputs) : value :=
  obj [ ("fullnameOverride", VStr name);
        ("rbac", obj [ ("create", VBool true) ]);
        ("defaultBackend", obj [ ("enabled", VBool false) ]);
        ("controller",
          Lodash.merge (obj []) (controllerValues props) (controllerOverlay props));
        ("tcp", ports_object (tcp props));
        ("udp", ports_object (udp props)) ].


End NginxIngress.

(** ** Vocabulary of the statements *)
Module Spec.

(** An optional input that was not given: [undefined] or [null]. *)
Definition nullish {A} (x : optional A) : Prop :=
  x = Undefined ∨ x = Null.

(** The explicit ordered-map merge the specification asks for: the defaults
    first, the overrides applied last, so that an override wins a collision. *)
Definition ordered_merge (defaults overrides : gmap string string)
    : gmap string string :=
  overrides ∪ defaults.

(** One [matchExpressions] entry selecting the pods whose label [k] is [v]. *)
Definition label_in (kv : string * string) : value :=
  obj [ ("key", VStr kv.1); ("operator", VStr "In"); ("values", VArr [ VStr kv.2 ]) ].

(** [affinity] is a pod anti-affinity made of one preferred (soft) term over
    [topology] whose label selector matches [labels]. *)
Definition soft_anti_affinity
    (topology : string) (labels : list (string * string)) (affinity : value)
    : Prop :=
  ∃ weight term,
    get_path [ "podAntiAffinity";
               "preferredDuringSchedulingIgnoredDuringExecution" ] affinity
      = VArr [ term ]
    ∧ get "weight" term = VNum weight
    ∧ get_path [ "podAffinityTerm"; "topologyKey" ] term = VStr topology
    ∧ get_path [ "podAffinityTerm"; "labelSelector"; "matchExpressions" ] term
      = VArr (label_in <$> labels).

(** The shape [{ name, protocol, addresses, avoid-buggy-ips }] of an emitted
    pool entry. *)
Definition pool_shape (entry : value) : Prop :=
  ∃ o, entry = VObj o
       ∧ dom o = {[ "name"; "protocol"; "addresses"; "avoid-buggy-ips" ]}.

(** [block] holds, for each port of [table] and for no other key, the
    locator of the port's backend. *)
Definition locators_of
    (table : gmap Z NginxIngress.L4ServiceBackend) (block : gmap Z string)
    : Prop :=
  (∀ p b, table !! p = Some b →
     block !! p
     = Some (NginxIngress.namespace b +:+ "/" +:+ NginxIngress.serviceName b
             +:+ ":" +:+ pretty (NginxIngress.servicePort b)))
  ∧ dom block = dom table.

(** [s] has no slash, as the name of a Kubernetes namespace. *)
Definition slash_free (s : string) : Prop :=
  "/"%char ∉ String.list_ascii_of_string s.

(** The last dashboard of [ds] named [n]. *)
Definition last_named (n : string) (ds : list Grafana.Dashboard.GrafanaDashboard)
    : option Grafana.Dashboard.GrafanaDashboard :=
  last (filter (λ d, Grafana.Dashboard.name d = n) ds).


End Spec.
Import Spec.

(** ** Concrete inputs *)
Module Examples.

(** A provider that answers every request with a run of the letter k. *)
Definition constant_provider : Random.RandomProvider :=
  λ _ args, String.string_of_list_ascii (replicate (Random.length args) "k"%char).

Definition with_dashboards (ds : optional (list Grafana.Dashboard.GrafanaDashboard))
    : Grafana.GrafanaInputs :=
  {| Grafana.namespace := Undefined;
     Grafana.version := Undefined;
     Grafana.dashboards := ds;
     Grafana.datasources := Undefined;
     Grafana.ingress := Undefined;
     Grafana.persistence := Undefined |}.

Definition with_ingress (ing : Ingress.t) : Grafana.GrafanaInputs :=
  {| Grafana.namespace := Undefined;
     Grafana.version := Undefined;
     Grafana.dashboards := Undefined;
     Grafana.datasources := Undefined;
     Grafana.ingress := Given ing;
     Grafana.persistence := Undefined |}.

(** [{ hosts }] *)
Definition ingress_hosts (hosts : list string) : Ingress.t :=
  {| Ingress.enabled := Undefined;
     Ingress.class := Undefined;
     Ingress.tls := Undefined;
     Ingress.hosts := Given hosts;
     Ingress.annotations := Undefined |}.

(** [{ tls, annotations }] *)
Definition ingress_annotated (tls : optional bool) (annotations : gmap string string)
    : Ingress.t :=
  {| Ingress.enabled := Undefined;
     Ingress.class := Undefined;
     Ingress.tls := tls;
     Ingress.hosts := Undefined;
     Ingress.annotations := Given annotations |}.

Definition with_pools (pools : optional (list MetalLB.AddressPool))
    : MetalLB.MetalLBInputs :=
  {| MetalLB.namespace := Undefined;
     MetalLB.version := Undefined;
     MetalLB.addressPools := pools |}.

Definition office_pool : MetalLB.AddressPool :=
  {| MetalLB.name := "office";
     MetalLB.protocol := MetalLB.layer2;
     MetalLB.addresses := [ "192.168.1.240-192.168.1.250" ] |}.

Definition with_replicas (replicas : optional (Pulumi.Input Z))
    : NginxIngress.NginxIngressInputs :=
  {| NginxIngress.version := Undefined;
     NginxIngress.mode :=
       Given (NginxIngress.Deployment
                {| NginxIngress.replicas := replicas;
                   NginxIngress.loadBalancerIP := Undefined;
                   NginxIngress.serviceAnnotations := Undefined |});
     NginxIngress.config := Undefined;
     NginxIngress.tcpServices := Undefined;
     NginxIngress.udpServices := Undefined;
     NginxIngress.maxmindLicenseKey := Undefined |}.

Definition postgres : NginxIngress.L4ServiceBackend :=
  {| NginxIngress.namespace := "db";
     NginxIngress.serviceName := "postgres";
     NginxIngress.servicePort := 5432 |}.

Definition with_tcp (table : gmap Z NginxIngress.L4ServiceBackend)
    : NginxIngress.NginxIngressInputs :=
  {| NginxIngress.version := Undefined;
     NginxIngress.mode := Undefined;
     NginxIngress.config := Undefined;
     NginxIngress.tcpServices := Given table;
     NginxIngress.udpServices := Undefined;
     NginxIngress.maxmindLicenseKey := Undefined |}.

(** A merge that copies the properties of the sources over the target,
    without descending into them. *)
Definition shallow_merge : Lodash.Merge :=
  λ object source1 source2,
    match object, source1, source2 with
    | VObj o, VObj s1, VObj s2 => VObj (s2 ∪ s1 ∪ o)
    | _, _, _ => object
    end.

Definition with_mode (mode : optional NginxIngress.Mode)
    : NginxIngress.NginxIngressInputs :=
  {| NginxIngress.version := Undefined;
     NginxIngress.mode := mode;
     NginxIngress.config := Undefined;
     NginxIngress.tcpServices := Undefined;
     NginxIngress.udpServices := Undefined;
     NginxIngress.maxmindLicenseKey := Undefined |}.

Definition dashboard (name : string) (source : Grafana.Dashboard.Source)
    : Grafana.Dashboard.GrafanaDashboard :=
  {| Grafana.Dashboard.name := name; Grafana.Dashboard.source := source |}.

Definition backend (namespace serviceName : string) (servicePort : Z)
    : NginxIngress.L4ServiceBackend :=
  {| NginxIngress.namespace := namespace;
     NginxIngress.serviceName := serviceName;
     NginxIngress.servicePort := servicePort |}.

Definition with_persistence (p : Persistence.t) : Grafana.GrafanaInputs :=
  {| Grafana.namespace := Undefined;
     Grafana.version := Undefined;
     Grafana.dashboards := Undefined;
     Grafana.datasources := Undefined;
     Grafana.ingress := Undefined;
     Grafana.persistence := Given p |}.

(** [{ sizeGB: 10, storageClass: 'fast' }] *)
Definition ten_gigabytes : Persistence.t :=
  {| Persistence.enabled := Undefined;
     Persistence.sizeGB := 10;
     Persistence.storageClass := Given "fast" |}.

Definition with_udp (table : gmap Z NginxIngress.L4ServiceBackend)
    : NginxIngress.NginxIngressInputs :=
  {| NginxIngress.version := Undefined;
     NginxIngress.mode := Undefined;
     NginxIngress.config := Undefined;
     NginxIngress.tcpServices := Undefined;
     NginxIngress.udpServices := Given table;
     NginxIngress.maxmindLicenseKey := Undefined |}.


End Examples.

(** * Properties *)

(** ** Assignment in a loop and object spread *)
Section assign.
Context {K : Type} `{Countable K} {A : Type}.
Implicit Types (o : gmap K A) (l : list (K * A)).

Lemma assign_cons o k v l : assign o ((k, v) :: l) = assign (<[k := v]> o) l.
Proof. reflexivity. Qed.

(** Over entries with distinct keys, assigning in turn is the union of the
    entries with the map assigned to, the entries winning. *)
Lemma assign_union o l : NoDup l.*1 → assign o l = list_to_map l ∪ o.
Proof.
  intros Hnodup. revert o.
  induction l as [|[k v] l IH]; intros o.
  - cbn. by rewrite (left_id_L ∅ (∪)).
  - rewrite fmap_cons in Hnodup. apply NoDup_cons in Hnodup as [Hk Hl].
    rewrite assign_cons, (IH Hl), list_to_map_cons.
    rewrite <- insert_union_l. symmetry.
    apply insert_union_r.
    by apply not_elem_of_list_to_map_1.
Qed.

(** A loop that assigns [f v] under each key [k] of the entries. *)
Lemma foldl_assign_fmap {B} (f : A → B) (acc : gmap K B) l :
  foldl (λ b '(k, v), <[k := f v]> b) acc l = assign acc (prod_map id f <$> l).
Proof.
  revert acc. induction l as [|[k v] l IH]; intros acc; [done|].
  cbn. apply IH.
Qed.

End assign.

Lemma spread_union {A} (o m : gmap string A) : spread o (Given m) = m ∪ o.
Proof.
  unfold spread. rewrite assign_union by apply NoDup_fst_map_to_list.
  by rewrite list_to_map_to_list.
Qed.

Lemma spread_nullish {A} (o : gmap string A) src : nullish src → spread o src = o.
Proof. by intros [-> | ->]. Qed.

(** ** MetalLB: the address pools *)
Section metallb.
Implicit Types (props : optional MetalLB.MetalLBInputs).

(** What the constructor writes under [configInline['address-pools']]. *)
Lemma metallb_address_pools props :
  get_path [ "configInline"; "address-pools" ] (MetalLB.values props)
  = of_optional VArr
      (props ?> MetalLB.addressPools
         ?> (λ pools, Given (MetalLB.pool_entry <$> pools))).
Proof. reflexivity. Qed.

Lemma pool_entry_shape pool : pool_shape (MetalLB.pool_entry pool).
Proof.
  eexists. split; [reflexivity|].
  unfold assign. cbn [foldl].
  rewrite !dom_insert_L, dom_empty_L. set_solver.
Qed.

Lemma pool_entry_fields pool :
  get "name" (MetalLB.pool_entry pool) = VStr (MetalLB.name pool)
  ∧ get "protocol" (MetalLB.pool_entry pool)
    = VStr (MetalLB.protocol_tag (MetalLB.protocol pool))
  ∧ get "addresses" (MetalLB.pool_entry pool)
    = VArr (VStr <$> MetalLB.addresses pool)
  ∧ get "avoid-buggy-ips" (MetalLB.pool_entry pool) = VBool true.
Proof. repeat split. Qed.

(** C4, as stated, fails on the empty list: [addressPools: []] is mapped to
    the empty list, which is written under the key. *)
Lemma metallb_empty_pools_listed :
  get_path [ "configInline"; "address-pools" ]
    (MetalLB.values (Given (Examples.with_pools (Given []))))
  = VArr []
  ∧ get_path [ "configInline"; "address-pools" ]
      (MetalLB.values (Given (Examples.with_pools (Given []))))
    ≠ VUndefined.
Proof. split; [reflexivity | discriminate]. Qed.

(** C4, amended: when the address-pool input is absent (no props, or
    [addressPools] undefined or null) the address-pools key of the values is
    undefined, so the chart default applies; it is neither an empty list nor
    a guessed value. *)
Theorem metallb_pools_omitted_when_absent props :
  nullish (props ?> MetalLB.addressPools) →
  get_path [ "configInline"; "address-pools" ] (MetalLB.values props)
  = VUndefined.
Proof.
  intros Habsent. rewrite metallb_address_pools.
  by destruct Habsent as [-> | ->].
Qed.

Lemma metallb_pools_omitted_when_absent_witness :
  get_path [ "configInline"; "address-pools" ]
    (MetalLB.values (Given (Examples.with_pools Null)))
  = VUndefined.
Proof.
  apply (metallb_pools_omitted_when_absent (Given (Examples.with_pools Null))).
  right. reflexivity.
Defined.

(** C8: every entry written for a given list of pools has the shape
    [{ name, protocol, addresses, avoid-buggy-ips }], carries the name, the
    protocol and the addresses of its pool, and has [avoid-buggy-ips] set to
    [true]; the input has no field that could change the flag. *)
Theorem metallb_pool_entries props pools :
  props ?> MetalLB.addressPools = Given pools →
  ∃ entries,
    get_path [ "configInline"; "address-pools" ] (MetalLB.values props)
    = VArr entries
    ∧ Forall2
        (λ pool entry,
           pool_shape entry
           ∧ get "name" entry = VStr (MetalLB.name pool)
           ∧ get "protocol" entry
             = VStr (MetalLB.protocol_tag (MetalLB.protocol pool))
           ∧ get "addresses" entry = VArr (VStr <$> MetalLB.addresses pool)
           ∧ get "avoid-buggy-ips" entry = VBool true)
        pools entries.
Proof.
  intros Hpools. rewrite metallb_address_pools, Hpools.
  exists (MetalLB.pool_entry <$> pools). split; [reflexivity|].
  apply Forall2_fmap_r, Forall_Forall2_diag, Forall_forall.
  intros pool _. split; [apply pool_entry_shape | apply pool_entry_fields].
Qed.

Lemma metallb_pool_entries_witness :
  ∃ entries,
    get_path [ "configInline"; "address-pools" ]
      (MetalLB.values (Given (Examples.with_pools (Given [ Examples.office_pool ]))))
    = VArr entries
    ∧ Forall2
        (λ pool entry,
           pool_shape entry
           ∧ get "name" entry = VStr (MetalLB.name pool)
           ∧ get "protocol" entry
             = VStr (MetalLB.protocol_tag (MetalLB.protocol pool))
           ∧ get "addresses" entry = VArr (VStr <$> MetalLB.addresses pool)
           ∧ get "avoid-buggy-ips" entry = VBool true)
        [ Examples.office_pool ] entries.
Proof.
  apply (metallb_pool_entries
           (Given (Examples.with_pools (Given [ Examples.office_pool ])))).
  reflexivity.
Defined.

End metallb.

(** ** Grafana: the values of the chart *)
Section grafana.
Context `{provider : Random.RandomProvider}.
Implicit Types (name : string) (props : optional Grafana.GrafanaInputs).
Implicit Types (ing : Ingress.t).

Lemma grafana_values_dashboards name props :
  get "dashboards" (Grafana.values name props) = Grafana.dashboards_block props
  ∧ get "dashboardProviders" (Grafana.values name props)
    = Grafana.dashboardProviders_block props.
Proof. split; reflexivity. Qed.

Lemma grafana_values_server name props :
  get_path [ "grafana.ini"; "server" ] (Grafana.values name props)
  = Grafana.server props.
Proof. reflexivity. Qed.

Lemma grafana_values_annotations name props ing :
  props ?> Grafana.ingress = Given ing →
  get_path [ "ingress"; "annotations" ] (Grafana.values name props)
  = VObj (VStr <$> Grafana.ingress_annotations ing).
Proof.
  intros Hing.
  change (get_path _ _) with (get "annotations" (Grafana.ingress_block name props)).
  unfold Grafana.ingress_block. by rewrite Hing.
Qed.

(** Reading one annotation of the ingress block. *)
Lemma grafana_values_annotation name props ing k :
  props ?> Grafana.ingress = Given ing →
  get_path [ "ingress"; "annotations"; k ] (Grafana.values name props)
  = from_option VStr VUndefined (Grafana.ingress_annotations ing !! k).
Proof.
  intros Hing.
  change (get_path _ _)
    with (get k (get_path [ "ingress"; "annotations" ] (Grafana.values name props))).
  rewrite (grafana_values_annotations _ _ _ Hing). cbn [get].
  rewrite lookup_fmap. by destruct (_ !! k).
Qed.

Lemma computed_annotations_entries ing :
  Grafana.computed_annotations ing
  = <["kubernetes.io/tls-acme" :=
        if is_false (Ingress.tls ing) then "false" else "true"]>
      (<["kubernetes.io/ingress.class" := Ingress.class ing ?? "nginx"]> ∅).
Proof. reflexivity. Qed.

(** The object built by the literal is the ordered merge of the computed
    entries with the caller's annotations. *)
Lemma ingress_annotations_merge ing :
  Grafana.ingress_annotations ing
  = ordered_merge (Grafana.computed_annotations ing)
      (Ingress.annotations ing ?? ∅).
Proof.
  unfold Grafana.ingress_annotations, ordered_merge.
  destruct (Ingress.annotations ing) as [| |m]; cbn [nullish_or].
  - rewrite spread_nullish by (by left). by rewrite (left_id_L ∅ (∪)).
  - rewrite spread_nullish by (by right). by rewrite (left_id_L ∅ (∪)).
  - apply spread_union.
Qed.

Lemma ingress_annotations_lookup ing k :
  Grafana.ingress_annotations ing !! k
  = match (Ingress.annotations ing ?? ∅) !! k with
    | Some v => Some v
    | None => Grafana.computed_annotations ing !! k
    end.
Proof.
  rewrite ingress_annotations_merge. unfold ordered_merge.
  rewrite lookup_union. by destruct (_ !! k), (_ !! k).
Qed.

(** The server block follows the first host of a non-empty list, and is left
    undefined when no list is given. *)
Lemma grafana_server_first_host props host hosts :
  props ?> Grafana.ingress ?> Ingress.hosts = Given (host :: hosts) →
  Grafana.server props
  = obj [ ("domain", VStr host); ("root_url", VStr ("https://" +:+ host)) ].
Proof. unfold Grafana.server. by intros ->. Qed.

Lemma grafana_server_no_hosts props :
  nullish (props ?> Grafana.ingress ?> Ingress.hosts) →
  Grafana.server props = VUndefined.
Proof. unfold Grafana.server. by intros [-> | ->]. Qed.

(** C2, amended: when no dashboards list is given (no props, or [dashboards]
    undefined or null) the dashboards and dashboardProviders keys of the
    values are both undefined, not empty maps. *)
Theorem grafana_dashboards_omitted_when_absent name props :
  nullish (props ?> Grafana.dashboards) →
  get "dashboards" (Grafana.values name props) = VUndefined
  ∧ get "dashboardProviders" (Grafana.values name props) = VUndefined.
Proof.
  intros Habsent.
  destruct (grafana_values_dashboards name props) as [-> ->].
  unfold Grafana.dashboards_block, Grafana.dashboardProviders_block.
  by destruct Habsent as [-> | ->].
Qed.

(** C3, at the failing input [{ ingress: { hosts: [] } }]: the server block is
    written, with an undefined domain and the root URL of the string
    "undefined". *)
Theorem grafana_server_of_empty_hosts name :
  get_path [ "grafana.ini"; "server" ]
    (Grafana.values name
       (Given (Examples.with_ingress (Examples.ingress_hosts []))))
  = obj [ ("domain", VUndefined); ("root_url", VStr "https://undefined") ]
  ∧ get_path [ "grafana.ini"; "server"; "root_url" ]
      (Grafana.values name
         (Given (Examples.with_ingress (Examples.ingress_hosts []))))
    = VStr "https://undefined".
Proof. split; reflexivity. Qed.


(** C6, amended: when the caller's annotation map has no
    kubernetes.io/tls-acme entry, the annotation is "true" for a TLS flag
    that is undefined, null or true, and "false" for a TLS flag that is
    false. *)
Theorem grafana_tls_acme_annotation name props ing :
  props ?> Grafana.ingress = Given ing →
  (Ingress.annotations ing ?? ∅) !! "kubernetes.io/tls-acme" = None →
  (Ingress.tls ing ≠ Given false →
   get_path [ "ingress"; "annotations"; "kubernetes.io/tls-acme" ]
     (Grafana.values name props)
   = VStr "true")
  ∧ (Ingress.tls ing = Given false →
     get_path [ "ingress"; "annotations"; "kubernetes.io/tls-acme" ]
       (Grafana.values name props)
     = VStr "false").
Proof.
  intros Hing Hfree.
  rewrite (grafana_values_annotation _ _ _ _ Hing), ingress_annotations_lookup.
  rewrite Hfree, computed_annotations_entries, lookup_insert_eq. cbn.
  split.
  - intros Htls. by destruct (Ingress.tls ing) as [| |[|]].
  - by intros ->.
Qed.

(** C10: whatever the inputs, grafana.ini enables anonymous access with the
    Editor role and disables basic authentication. *)
Theorem grafana_anonymous_editor name props :
  get_path [ "grafana.ini"; "auth.anonymous"; "enabled" ]
    (Grafana.values name props) = VStr "true"
  ∧ get_path [ "grafana.ini"; "auth.anonymous"; "org_role" ]
      (Grafana.values name props) = VStr "Editor"
  ∧ get_path [ "grafana.ini"; "auth.basic"; "enabled" ]
      (Grafana.values name props) = VStr "false".
Proof.
  assert (get "grafana.ini" (Grafana.values name props)
          = obj [ ("server", Grafana.server props);
                  ("auth.anonymous",
                    obj [ ("enabled", VStr "true");
                          ("org_name", VStr "Main Org.");
                          ("org_role", VStr "Editor") ]);
                  ("auth.basic", obj [ ("enabled", VStr "false") ]) ]) as Hini
    by reflexivity.
  unfold get_path. cbn [foldl]. rewrite Hini.
  repeat split.
Qed.

(** C9: given a provider that honours the requested length and the absence
    of special characters, the administrator password has 32 characters, all
    of them letters or digits; it is the password written in the values; and
    under one provider state it is the same for every build, whatever the
    component's name and inputs. *)
Theorem grafana_admin_password `{!Random.RandomProviderContract} name props :
  String.length Grafana.adminPassword = 32%nat
  ∧ forallb Random.is_alphanumeric
      (String.list_ascii_of_string Grafana.adminPassword) = true
  ∧ get "adminPassword" (Grafana.values name props)
    = VStr Grafana.adminPassword
  ∧ (∀ name' props',
       get "adminPassword" (Grafana.values name' props')
       = get "adminPassword" (Grafana.values name props)).
Proof.
  unfold Grafana.adminPassword. split; [|split; [|split]].
  - by rewrite Random.result_length.
  - by apply Random.result_plain.
  - reflexivity.
  - reflexivity.
Qed.

End grafana.

Lemma constant_provider_contract :
  @Random.RandomProviderContract Examples.constant_provider.
Proof.
  split; intros name args; unfold Random.RandomString, Examples.constant_provider.
  - induction (Random.length args) as [|n IH]; [done|].
    cbn. by rewrite IH.
  - intros _. rewrite String.list_ascii_of_string_of_list_ascii.
    induction (Random.length args) as [|n IH]; [done|].
    cbn. apply IH.
Qed.

(** C2, as stated, fails on the empty list: [dashboards: []] yields a
    dashboards block with an empty default folder, and the provider block. *)
Lemma grafana_empty_dashboards_written :
  get "dashboards"
    (@Grafana.values Examples.constant_provider "grafana"
       (Given (Examples.with_dashboards (Given []))))
  = obj [ ("default", obj []) ]
  ∧ get "dashboards"
      (@Grafana.values Examples.constant_provider "grafana"
         (Given (Examples.with_dashboards (Given []))))
    ≠ VUndefined
  ∧ get "dashboardProviders"
      (@Grafana.values Examples.constant_provider "grafana"
         (Given (Examples.with_dashboards (Given []))))
    ≠ VUndefined.
Proof. split; [reflexivity | split; discriminate]. Qed.

Lemma grafana_dashboards_omitted_when_absent_witness :
  get "dashboards"
    (@Grafana.values Examples.constant_provider "grafana"
       (Given (Examples.with_dashboards Undefined)))
  = VUndefined
  ∧ get "dashboardProviders"
      (@Grafana.values Examples.constant_provider "grafana"
         (Given (Examples.with_dashboards Undefined)))
    = VUndefined.
Proof.
  apply (@grafana_dashboards_omitted_when_absent
           Examples.constant_provider "grafana"
           (Given (Examples.with_dashboards Undefined))).
  left. reflexivity.
Defined.


(** C6, as stated, fails when the caller's annotations carry the key: with
    the TLS flag true and the caller annotation
    [{ "kubernetes.io/tls-acme": "false" }] the annotation is "false". *)
Lemma grafana_tls_acme_overridden :
  Ingress.tls
    (Examples.ingress_annotated (Given true)
       {[ "kubernetes.io/tls-acme" := "false" ]})
  = Given true
  ∧ get_path [ "ingress"; "annotations"; "kubernetes.io/tls-acme" ]
      (@Grafana.values Examples.constant_provider "grafana"
         (Given (Examples.with_ingress
                   (Examples.ingress_annotated (Given true)
                      {[ "kubernetes.io/tls-acme" := "false" ]}))))
    = VStr "false".
Proof.
  split; [reflexivity|].
  erewrite grafana_values_annotation by reflexivity.
  rewrite ingress_annotations_lookup.
  cbn [Ingress.annotations Examples.ingress_annotated nullish_or].
  by rewrite lookup_singleton_eq.
Qed.

Lemma grafana_tls_acme_annotation_witness :
  get_path [ "ingress"; "annotations"; "kubernetes.io/tls-acme" ]
    (@Grafana.values Examples.constant_provider "grafana"
       (Given (Examples.with_ingress
                 (Examples.ingress_annotated Null
                    {[ "cert-manager.io/cluster-issuer" := "letsencrypt" ]}))))
  = VStr "true"
  ∧ get_path [ "ingress"; "annotations"; "kubernetes.io/tls-acme" ]
      (@Grafana.values Examples.constant_provider "grafana"
         (Given (Examples.with_ingress
                   (Examples.ingress_annotated (Given false)
                      {[ "cert-manager.io/cluster-issuer" := "letsencrypt" ]}))))
    = VStr "false".
Proof.
  split.
  - destruct (@grafana_tls_acme_annotation
                Examples.constant_provider "grafana"
                (Given (Examples.with_ingress
                          (Examples.ingress_annotated Null
                             {[ "cert-manager.io/cluster-issuer" := "letsencrypt" ]})))
                (Examples.ingress_annotated Null
                   {[ "cert-manager.io/cluster-issuer" := "letsencrypt" ]}))
      as [Htrue _]; [reflexivity | reflexivity |].
    apply Htrue. discriminate.
  - destruct (@grafana_tls_acme_annotation
                Examples.constant_provider "grafana"
                (Given (Examples.with_ingress
                          (Examples.ingress_annotated (Given false)
                             {[ "cert-manager.io/cluster-issuer" := "letsencrypt" ]})))
                (Examples.ingress_annotated (Given false)
                   {[ "cert-manager.io/cluster-issuer" := "letsencrypt" ]}))
      as [_ Hfalse]; [reflexivity | reflexivity |].
    apply Hfalse. reflexivity.
Defined.

Lemma grafana_admin_password_witness :
  String.length (@Grafana.adminPassword Examples.constant_provider) = 32%nat
  ∧ forallb Random.is_alphanumeric
      (String.list_ascii_of_string
         (@Grafana.adminPassword Examples.constant_provider)) = true
  ∧ get "adminPassword"
      (@Grafana.values Examples.constant_provider "grafana" Undefined)
    = VStr (@Grafana.adminPassword Examples.constant_provider)
  ∧ (∀ name' props',
       get "adminPassword"
         (@Grafana.values Examples.constant_provider name' props')
       = get "adminPassword"
           (@Grafana.values Examples.constant_provider "grafana" Undefined)).
Proof.
  exact (@grafana_admin_password Examples.constant_provider
           constant_provider_contract "grafana" Undefined).
Defined.

(** ** NginxIngress: the controller values and the L4 tables *)
Section nginx.
Implicit Types (props : optional NginxIngress.NginxIngressInputs).
Implicit Types (m : NginxIngress.NginxIngressDeploymentMode).
Implicit Types (table : gmap Z NginxIngress.L4ServiceBackend).

(** The [affinity] property follows the comparison of the replica count. *)
Lemma deployment_affinity_single m :
  Pulumi.le (NginxIngress.replicas m ?? Pulumi.Plain 1) 1 = true →
  get "affinity" (NginxIngress.deploymentValues m) = VUndefined.
Proof.
  intros Hle.
  unfold NginxIngress.deploymentValues. cbv zeta. rewrite Hle. reflexivity.
Qed.

Lemma deployment_affinity_spread m :
  Pulumi.le (NginxIngress.replicas m ?? Pulumi.Plain 1) 1 = false →
  soft_anti_affinity "kubernetes.io/hostname"
    [ ("app", "nginx-ingress"); ("component", "controller") ]
    (get "affinity" (NginxIngress.deploymentValues m)).
Proof.
  intros Hgt.
  unfold NginxIngress.deploymentValues. cbv zeta. rewrite Hgt.
  exists 1. eexists. repeat split.
Qed.


(** For plain replica counts the affinity is as the comment in the source
    says: undefined for a count of at most 1 (the default included), the
    preferred anti-affinity for a count of at least 2. *)
Lemma nginx_affinity_of_plain_counts props :
  (nullish (props ?> NginxIngress.mode) →
   get "affinity" (NginxIngress.controllerValues props) = VUndefined)
  ∧ (∀ m, props ?> NginxIngress.mode = Given (NginxIngress.Deployment m) →
     (nullish (NginxIngress.replicas m) →
      get "affinity" (NginxIngress.controllerValues props) = VUndefined)
     ∧ (∀ r, NginxIngress.replicas m = Given (Pulumi.Plain r) →
        (r ≤ 1 →
         get "affinity" (NginxIngress.controllerValues props) = VUndefined)
        ∧ (2 ≤ r →
           soft_anti_affinity "kubernetes.io/hostname"
             [ ("app", "nginx-ingress"); ("component", "controller") ]
             (get "affinity" (NginxIngress.controllerValues props))))).
Proof.
  unfold NginxIngress.controllerValues. split.
  - by intros [-> | ->].
  - intros m ->. split.
    + intros Hnone. apply deployment_affinity_single.
      by destruct Hnone as [-> | ->].
    + intros r Hr. split; intros Hcount.
      * apply deployment_affinity_single. rewrite Hr. by apply Z.leb_le.
      * apply deployment_affinity_spread. rewrite Hr. apply Z.leb_gt. lia.
Qed.

(** C1, at the failing input
    [{ mode: { kind: 'Deployment', replicas: pulumi.output(1) } }]: the
    replica count written is 1, and the affinity is the preferred
    anti-affinity, not undefined. *)
Theorem nginx_affinity_of_output_count :
  get "replicaCount"
    (NginxIngress.controllerValues
       (Given (Examples.with_replicas (Given (Pulumi.Output 1)))))
  = VNum 1
  ∧ soft_anti_affinity "kubernetes.io/hostname"
      [ ("app", "nginx-ingress"); ("component", "controller") ]
      (get "affinity"
         (NginxIngress.controllerValues
            (Given (Examples.with_replicas (Given (Pulumi.Output 1))))))
  ∧ get "affinity"
      (NginxIngress.controllerValues
         (Given (Examples.with_replicas (Given (Pulumi.Output 1)))))
    ≠ VUndefined.
Proof.
  split; [reflexivity|]. split.
  - by apply deployment_affinity_spread.
  - discriminate.
Qed.

Lemma l4Services_fmap table :
  NginxIngress.l4Services table = NginxIngress.locator <$> table.
Proof.
  unfold NginxIngress.l4Services.
  rewrite foldl_assign_fmap, assign_union.
  - rewrite list_to_map_fmap, list_to_map_to_list.
    apply (right_id_L ∅ (∪)).
  - rewrite <- list_fmap_compose.
    apply (NoDup_fst_map_to_list table).
Qed.

Lemma l4Services_locators table :
  locators_of table (NginxIngress.l4Services table).
Proof.
  rewrite l4Services_fmap. split.
  - intros p b Hp. by rewrite lookup_fmap, Hp.
  - apply dom_fmap_L.
Qed.

(** C7: the tcp and udp blocks hold, for each port of the caller's table and
    for no other key, the string namespace/serviceName:servicePort of the
    port's backend; the table [{5432: db, postgres, 5432}] yields
    [{5432: "db/postgres:5432"}]. *)
Theorem nginx_l4_locators props :
  locators_of (props ?> NginxIngress.tcpServices ?? ∅) (NginxIngress.tcp props)
  ∧ locators_of (props ?> NginxIngress.udpServices ?? ∅) (NginxIngress.udp props)
  ∧ NginxIngress.tcp (Given (Examples.with_tcp {[ 5432 := Examples.postgres ]}))
    = {[ 5432 := "db/postgres:5432" ]}.
Proof.
  split; [|split].
  - apply l4Services_locators.
  - apply l4Services_locators.
  - unfold NginxIngress.tcp. rewrite l4Services_fmap.
    cbn [chain nullish_or Examples.with_tcp NginxIngress.tcpServices].
    by rewrite map_fmap_singleton.
Qed.

End nginx.

Lemma nginx_l4_locators_witness :
  NginxIngress.tcp (Given (Examples.with_tcp {[ 5432 := Examples.postgres ]}))
    !! 5432
  = Some "db/postgres:5432"
  ∧ dom (NginxIngress.tcp (Given (Examples.with_tcp {[ 5432 := Examples.postgres ]})))
    = dom ({[ 5432 := Examples.postgres ]} : gmap Z NginxIngress.L4ServiceBackend).
Proof.
  destruct (nginx_l4_locators
              (Given (Examples.with_tcp {[ 5432 := Examples.postgres ]})))
    as [[Hports Hdom] _].
  split.
  - apply (Hports 5432 Examples.postgres). apply lookup_singleton_eq.
  - apply Hdom.
Defined.

Set Warnings "-clear-no-such-hyp".

(** ** NginxIngress: the two modes, the chart values and the service lookup *)
Section nginx_modes.
Implicit Types (props : optional NginxIngress.NginxIngressInputs).
Implicit Types (m : NginxIngress.NginxIngressDeploymentMode).
Implicit Types (table : gmap Z NginxIngress.L4ServiceBackend).

(** X1: in DaemonSet mode the controller values disable the service, bind
    host ports and report the node's internal address, and they carry
    neither a replica count nor an affinity, whatever else the caller
    passed. *)
Theorem nginx_daemonset_values props :
  props ?> NginxIngress.mode = Given NginxIngress.DaemonSet →
  get "kind" (NginxIngress.controllerValues props) = VStr "DaemonSet"
  ∧ get "service" (NginxIngress.controllerValues props)
    = obj [ ("enabled", VBool false) ]
  ∧ get_path [ "daemonset"; "useHostPort" ] (NginxIngress.controllerValues props)
    = VBool true
  ∧ get "reportNodeInternalIp" (NginxIngress.controllerValues props) = VBool true
  ∧ get "replicaCount" (NginxIngress.controllerValues props) = VUndefined
  ∧ get "affinity" (NginxIngress.controllerValues props) = VUndefined.
Proof.
  intros Hmode. unfold NginxIngress.controllerValues. rewrite Hmode.
  repeat split.
Qed.




(** X3: a replica count is written as it resolves, zero and negative counts
    included, and the caller's load-balancer address and service annotations
    are written unchanged: no annotation is added and none is dropped. *)
Theorem nginx_deployment_passthrough props m :
  props ?> NginxIngress.mode = Given (NginxIngress.Deployment m) →
  get "replicaCount" (NginxIngress.controllerValues props)
  = VNum (Pulumi.resolve (NginxIngress.replicas m ?? Pulumi.Plain 1))
  ∧ get_path [ "service"; "loadBalancerIP" ] (NginxIngress.controllerValues props)
    = of_optional VStr (NginxIngress.loadBalancerIP m)
  ∧ (∀ annotations k,
       NginxIngress.serviceAnnotations m = Given annotations →
       get_path [ "service"; "annotations"; k ] (NginxIngress.controllerValues props)
       = from_option VStr VUndefined (annotations !! k))
  ∧ (nullish (NginxIngress.serviceAnnotations m) →
     ∀ k, get_path [ "service"; "annotations"; k ]
            (NginxIngress.controllerValues props)
          = VUndefined).
Proof.
  intros Hmode. unfold NginxIngress.controllerValues. rewrite Hmode.
  split; [reflexivity|]. split; [reflexivity|].
  assert (get_path [ "service"; "annotations" ] (NginxIngress.deploymentValues m)
          = of_optional (λ a, VObj (VStr <$> a)) (NginxIngress.serviceAnnotations m))
    as Hann by reflexivity.
  split.
  - intros annotations k Hgiven.
    change (get_path _ _)
      with (get k (get_path [ "service"; "annotations" ]
                     (NginxIngress.deploymentValues m))).
    rewrite Hann, Hgiven. cbn [of_optional get].
    rewrite lookup_fmap. by destruct (annotations !! k).
  - intros Hnone k.
    change (get_path _ _)
      with (get k (get_path [ "service"; "annotations" ]
                     (NginxIngress.deploymentValues m))).
    rewrite Hann. by destruct Hnone as [-> | ->].
Qed.


End nginx_modes.

Lemma nginx_daemonset_values_witness :
  get "kind"
    (NginxIngress.controllerValues
       (Given (Examples.with_mode (Given NginxIngress.DaemonSet))))
  = VStr "DaemonSet"
  ∧ get "affinity"
      (NginxIngress.controllerValues
         (Given (Examples.with_mode (Given NginxIngress.DaemonSet))))
    = VUndefined.
Proof.
  destruct (nginx_daemonset_values
              (Given (Examples.with_mode (Given NginxIngress.DaemonSet))) eq_refl)
    as (Hkind & _ & _ & _ & _ & Haff).
  split; [exact Hkind | exact Haff].
Defined.


Lemma nginx_deployment_passthrough_witness :
  get "replicaCount"
    (NginxIngress.controllerValues (Given (Examples.with_replicas (Given (Pulumi.Plain (-2))))))
  = VNum (-2)
  ∧ get_path [ "service"; "annotations"; "any" ]
      (NginxIngress.controllerValues (Given (Examples.with_replicas (Given (Pulumi.Plain (-2))))))
    = VUndefined.
Proof.
  destruct (nginx_deployment_passthrough
              (Given (Examples.with_replicas (Given (Pulumi.Plain (-2))))) _ eq_refl)
    as (Hcount & _ & _ & Hnone).
  split; [exact Hcount|]. apply Hnone. by left.
Defined.

(** ** Strings as lists of characters *)
Section characters.
Local Open Scope list_scope.
Implicit Types (s : string) (c : ascii) (l r : list ascii).

Lemma chars_app s1 s2 :
  String.list_ascii_of_string (s1 +:+ s2)
  = String.list_ascii_of_string s1 ++ String.list_ascii_of_string s2.
Proof.
  induction s1 as [|c s1 IH]; [done|].
  change (String c s1 +:+ s2) with (String c (s1 +:+ s2)).
  cbn. by f_equal.
Qed.

Lemma chars_inj s1 s2 :
  String.list_ascii_of_string s1 = String.list_ascii_of_string s2 → s1 = s2.
Proof.
  intros Heq.
  rewrite <- (String.string_of_list_ascii_of_string s1),
          <- (String.string_of_list_ascii_of_string s2).
  by rewrite Heq.
Qed.

(** Two lists cut at the first occurrence of [c] agree on both sides. *)
Lemma cut_at_first c l1 r1 l2 r2 :
  c ∉ l1 → c ∉ l2 → l1 ++ c :: r1 = l2 ++ c :: r2 → l1 = l2 ∧ r1 = r2.
Proof.
  revert l2. induction l1 as [|a l1 IH]; intros [|b l2] H1 H2 Heq;
    simplify_eq/=.
  - done.
  - destruct H2. left.
  - destruct H1. left.
  - apply not_elem_of_cons in H1 as [_ H1], H2 as [_ H2].
    by destruct (IH l2 H1 H2) as [-> ->].
Qed.

(** Likewise at the last occurrence. *)
Lemma cut_at_last c l1 r1 l2 r2 :
  c ∉ r1 → c ∉ r2 → l1 ++ c :: r1 = l2 ++ c :: r2 → l1 = l2 ∧ r1 = r2.
Proof.
  intros H1 H2 Heq. apply (f_equal reverse) in Heq.
  rewrite !reverse_app, !reverse_cons, <- !(assoc_L (++)) in Heq.
  apply cut_at_first in Heq as [Hr Hl]; [|by rewrite elem_of_reverse..].
  split; [|by apply (inj reverse)].
  by apply (inj reverse).
Qed.

Lemma pretty_N_go_chars (P : ascii → Prop) x s :
  (∀ d, P (pretty_N_char d)) →
  Forall P (String.list_ascii_of_string s) →
  Forall P (String.list_ascii_of_string (pretty_N_go x s)).
Proof.
  intros Hdigit. revert s.
  induction (N.lt_wf_0 x) as [x _ IH]; intros s Hs.
  destruct (decide (x = 0)%N) as [->|Hx]; [by rewrite pretty_N_go_0|].
  rewrite pretty_N_go_step by lia.
  apply IH; [apply N.div_lt; lia|].
  cbn. by constructor.
Qed.

(** The decimal string of an integer has no colon. *)
Lemma pretty_Z_no_colon (z : Z) :
  ":"%char ∉ String.list_ascii_of_string (pretty z).
Proof.
  assert (∀ d, pretty_N_char d ≠ ":"%char) as Hdigit
    by (intros d; unfold pretty_N_char; by repeat case_match).
  assert (∀ p : positive,
            Forall (λ c, c ≠ ":"%char) (String.list_ascii_of_string (pretty p)))
    as Hpos.
  { intros p. unfold pretty, pretty_positive, pretty, pretty_N.
    case_decide; [done|]. apply pretty_N_go_chars; [done|constructor]. }
  intros Hin. destruct z as [|p|p].
  - apply elem_of_cons in Hin as [?|Hin]; [done|]. by apply not_elem_of_nil in Hin.
  - by apply (proj1 (Forall_forall _ _) (Hpos p)) in Hin.
  - change (pretty (Z.neg p)) with (String "-" (pretty p)) in Hin.
    apply elem_of_cons in Hin as [?|Hin]; [done|].
    by apply (proj1 (Forall_forall _ _) (Hpos p)) in Hin.
Qed.

End characters.

(** ** NginxIngress: locators can be read back *)
Section nginx_locators.
Implicit Types (b : NginxIngress.L4ServiceBackend).
Implicit Types (table : gmap Z NginxIngress.L4ServiceBackend).

Lemma locator_chars b :
  String.list_ascii_of_string (NginxIngress.locator b)
  = (String.list_ascii_of_string (NginxIngress.namespace b)
     ++ "/"%char
     :: (String.list_ascii_of_string (NginxIngress.serviceName b)
         ++ ":"%char
         :: String.list_ascii_of_string (pretty (NginxIngress.servicePort b))))%list.
Proof.
  unfold NginxIngress.locator. cbn [ToString].
  by rewrite !chars_app.
Qed.

Lemma locator_inj_slash_free b1 b2 :
  slash_free (NginxIngress.namespace b1) →
  slash_free (NginxIngress.namespace b2) →
  NginxIngress.locator b1 = NginxIngress.locator b2 →
  b1 = b2.
Proof.
  intros Hns1 Hns2 Heq.
  apply (f_equal String.list_ascii_of_string) in Heq.
  rewrite !locator_chars in Heq.
  apply cut_at_first in Heq as [Hns Heq]; [|done..].
  apply cut_at_last in Heq as [Hsvc Hport]; [|apply pretty_Z_no_colon..].
  apply chars_inj in Hns, Hsvc, Hport. apply (inj pretty) in Hport.
  destruct b1, b2. by simplify_eq/=.
Qed.

(** X5: a locator determines its backend whenever the namespaces contain no
    slash, so a table of such backends can be read back from the block
    written for it; with a slash in a namespace two different backends can
    share a locator, as "a/b" with service "c" and "a" with service "b/c"
    do. *)
Theorem locator_read_back :
  (∀ b1 b2,
     slash_free (NginxIngress.namespace b1) →
     slash_free (NginxIngress.namespace b2) →
     NginxIngress.locator b1 = NginxIngress.locator b2 →
     b1 = b2)
  ∧ (∀ table1 table2,
       map_Forall (λ _ b, slash_free (NginxIngress.namespace b)) table1 →
       map_Forall (λ _ b, slash_free (NginxIngress.namespace b)) table2 →
       NginxIngress.l4Services table1 = NginxIngress.l4Services table2 →
       table1 = table2)
  ∧ NginxIngress.locator (Examples.backend "a/b" "c" 80)
    = NginxIngress.locator (Examples.backend "a" "b/c" 80)
  ∧ Examples.backend "a/b" "c" 80 ≠ Examples.backend "a" "b/c" 80.
Proof.
  split; [exact locator_inj_slash_free|]. split; [|split; [reflexivity|discriminate]].
  intros table1 table2 H1 H2 Heq. rewrite !l4Services_fmap in Heq.
  apply map_eq. intros p.
  apply (f_equal (λ t : gmap Z string, t !! p)) in Heq.
  rewrite !lookup_fmap in Heq.
  destruct (table1 !! p) as [b1|] eqn:Hp1, (table2 !! p) as [b2|] eqn:Hp2;
    simplify_eq/=; [|done].
  f_equal. apply locator_inj_slash_free; [by eapply H1 | by eapply H2 | done].
Qed.

End nginx_locators.

Lemma locator_read_back_witness :
  Examples.postgres = Examples.postgres
  ∧ ({[ 5432 := Examples.postgres ]} : gmap Z NginxIngress.L4ServiceBackend)
    = {[ 5432 := Examples.postgres ]}.
Proof.
  destruct locator_read_back as (Hone & Htable & _).
  assert (slash_free (NginxIngress.namespace Examples.postgres)) as Hfree.
  { unfold slash_free. cbn. intros Hin.
    repeat (apply elem_of_cons in Hin as [Hin|Hin]; [discriminate Hin|]).
    by apply not_elem_of_nil in Hin. }
  split.
  - apply Hone; [exact Hfree | exact Hfree | reflexivity].
  - apply Htable; [by apply map_Forall_singleton..|reflexivity].
Defined.

(** ** NginxIngress: the values of the chart *)
Section nginx_chart.
Context `{lodash : Lodash.Merge}.
Implicit Types (name : string).
Implicit Types (props : optional NginxIngress.NginxIngressInputs).

(** The mode writes its values under six names at most. *)
Lemma controllerValues_keys props :
  ∃ s, NginxIngress.controllerValues props = VObj s
       ∧ dom s ⊆ {[ "kind"; "replicaCount"; "service"; "affinity";
                    "reportNodeInternalIp"; "daemonset" ]}.
Proof.
  unfold NginxIngress.controllerValues, NginxIngress.deploymentValues,
    NginxIngress.daemonSetValues, obj.
  destruct (props ?> NginxIngress.mode) as [| |[m|]];
    (eexists; split; [reflexivity|]);
    unfold assign; cbn [foldl];
    rewrite !dom_insert_L, dom_empty_L; set_solver.
Qed.

Lemma controllerOverlay_keys props :
  ∃ s, NginxIngress.controllerOverlay props = VObj s
       ∧ dom s = {[ "config"; "labels"; "podLabels"; "admissionWebhooks";
                    "metrics"; "maxmindLicenseKey" ]}.
Proof.
  unfold NginxIngress.controllerOverlay, obj.
  eexists; split; [reflexivity|].
  unfold assign; cbn [foldl].
  rewrite !dom_insert_L, dom_empty_L. set_solver.
Qed.

(** X6: given a merge that keeps sources without a common key apart, the
    controller block of the chart reads every property the mode wrote as the
    mode wrote it, and every other property as in the fixed overlay: the
    overlay never replaces the kind, the replica count, the service or the
    affinity, and the caller's config reaches the block unchanged. *)
Theorem nginx_controller_block `{!Lodash.MergeContract} name props k :
  get k (get "controller" (NginxIngress.values name props))
  = match get k (NginxIngress.controllerValues props) with
    | VUndefined => get k (NginxIngress.controllerOverlay props)
    | v => v
    end
  ∧ get "affinity" (get "controller" (NginxIngress.values name props))
    = get "affinity" (NginxIngress.controllerValues props)
  ∧ get "replicaCount" (get "controller" (NginxIngress.values name props))
    = get "replicaCount" (NginxIngress.controllerValues props)
  ∧ get "config" (get "controller" (NginxIngress.values name props))
    = of_optional (λ m, VObj (VStr <$> m)) (props ?> NginxIngress.config)
  ∧ get_path [ "metrics"; "enabled" ]
      (get "controller" (NginxIngress.values name props))
    = VBool true.
Proof.
  destruct (controllerValues_keys props) as (s1 & Hs1 & Hdom1).
  destruct (controllerOverlay_keys props) as (s2 & Hs2 & Hdom2).
  assert (dom s1 ## dom s2) as Hapart by (rewrite Hdom2; set_solver).
  assert (∀ j, get j (get "controller" (NginxIngress.values name props))
               = get j (VObj (s1 ∪ s2))) as Hget.
  { intros j.
    change (get "controller" (NginxIngress.values name props))
      with (Lodash.merge (obj []) (NginxIngress.controllerValues props)
              (NginxIngress.controllerOverlay props)).
    rewrite Hs1, Hs2. by apply Lodash.merge_apart. }
  assert (∀ j, get j (VObj (s1 ∪ s2))
               = match get j (VObj s1) with
                 | VUndefined => get j (VObj s2)
                 | v => v
                 end) as Hunion.
  { intros j. cbn [get]. rewrite lookup_union.
    destruct (s1 !! j) as [v|] eqn:Hj1; cbn.
    - assert (s2 !! j = None) as ->.
      { apply not_elem_of_dom. apply elem_of_dom_2 in Hj1. set_solver. }
      cbn. by destruct v.
    - by destruct (s2 !! j). }
  assert (∀ j, j ∈ dom s2 → get j (VObj s1) = VUndefined) as Hmode.
  { intros j Hj. cbn [get].
    assert (s1 !! j = None) as -> by (apply not_elem_of_dom; set_solver).
    done. }
  assert (∀ j, j ∉ dom s2 → get j (VObj s2) = VUndefined) as Hoverlay.
  { intros j Hj. cbn [get]. by rewrite (proj1 (not_elem_of_dom _ _) Hj). }
  rewrite <- Hs1, <- Hs2 in Hunion.
  split; [by rewrite Hget, Hunion|].
  split.
  { rewrite Hget, Hunion, Hs2, Hoverlay by (rewrite Hdom2; set_solver).
    by destruct (get "affinity" _). }
  split.
  { rewrite Hget, Hunion, Hs2, Hoverlay by (rewrite Hdom2; set_solver).
    by destruct (get "replicaCount" _). }
  split.
  { by rewrite Hget, Hunion, Hs1, Hmode by (rewrite Hdom2; set_solver). }
  unfold get_path. cbn [foldl].
  by rewrite Hget, Hunion, Hs1, Hmode by (rewrite Hdom2; set_solver).
Qed.

(** X7: the tcp and udp blocks of the chart hold, under the decimal string
    of each port of the caller's table, the locator of its backend; in the
    tcp block and in the udp block alike every other property is undefined,
    and without a table the blocks are empty objects. *)
Theorem nginx_chart_ports name props (p : Z) :
  get (pretty p) (get "tcp" (NginxIngress.values name props))
  = from_option (VStr ∘ NginxIngress.locator) VUndefined
      ((props ?> NginxIngress.tcpServices ?? ∅) !! p)
  ∧ get (pretty p) (get "udp" (NginxIngress.values name props))
    = from_option (VStr ∘ NginxIngress.locator) VUndefined
        ((props ?> NginxIngress.udpServices ?? ∅) !! p)
  ∧ (∀ k, (∀ q, q ∈ dom (props ?> NginxIngress.tcpServices ?? ∅) → k ≠ pretty q) →
       get k (get "tcp" (NginxIngress.values name props)) = VUndefined)
  ∧ (∀ k, (∀ q, q ∈ dom (props ?> NginxIngress.udpServices ?? ∅) → k ≠ pretty q) →
       get k (get "udp" (NginxIngress.values name props)) = VUndefined)
  ∧ get "tcp" (NginxIngress.values name Undefined) = obj []
  ∧ get "udp" (NginxIngress.values name Undefined) = obj [].
Proof.
  change (get "tcp" (NginxIngress.values name props))
    with (NginxIngress.ports_object (NginxIngress.tcp props)).
  change (get "udp" (NginxIngress.values name props))
    with (NginxIngress.ports_object (NginxIngress.udp props)).
  unfold NginxIngress.ports_object, NginxIngress.tcp, NginxIngress.udp.
  rewrite !l4Services_fmap. cbn [get].
  assert (∀ (table : gmap Z NginxIngress.L4ServiceBackend) k,
            (∀ q, q ∈ dom table → k ≠ pretty q) →
            default VUndefined
              (kmap (M2 := gmap string) pretty
                 (VStr <$> (NginxIngress.locator <$> table)) !! k)
            = VUndefined) as Hother.
  { intros table k Hk.
    destruct (kmap pretty _ !! k) as [v|] eqn:Hlook; [|done].
    apply (lookup_kmap_Some pretty) in Hlook as (q & -> & Hq).
    destruct (Hk q); [|done].
    rewrite !lookup_fmap in Hq. apply elem_of_dom.
    by destruct (_ !! q). }
  split; [|split; [|split; [|split; [|split]]]].
  - rewrite (lookup_kmap pretty), !lookup_fmap.
    by destruct (_ !! p).
  - rewrite (lookup_kmap pretty), !lookup_fmap.
    by destruct (_ !! p).
  - apply Hother.
  - apply Hother.
  - reflexivity.
  - reflexivity.
Qed.


End nginx_chart.

Lemma shallow_merge_contract : @Lodash.MergeContract Examples.shallow_merge.
Proof.
  split. intros s1 s2 k Hapart.
  unfold Lodash.merge, Examples.shallow_merge.
  change (obj []) with (VObj ∅). cbn [get].
  rewrite (right_id_L ∅ (∪)).
  rewrite (map_union_comm s2 s1); [done|].
  apply map_disjoint_dom. set_solver.
Qed.

Lemma nginx_controller_block_witness :
  get "affinity"
    (get "controller"
       (@NginxIngress.values Examples.shallow_merge "ingress"
          (Given (Examples.with_replicas (Given (Pulumi.Plain 3))))))
  = get "affinity"
      (NginxIngress.controllerValues (Given (Examples.with_replicas (Given (Pulumi.Plain 3)))))
  ∧ get_path [ "metrics"; "enabled" ]
      (get "controller"
         (@NginxIngress.values Examples.shallow_merge "ingress"
            (Given (Examples.with_replicas (Given (Pulumi.Plain 3))))))
    = VBool true.
Proof.
  destruct (@nginx_controller_block Examples.shallow_merge shallow_merge_contract
              "ingress" (Given (Examples.with_replicas (Given (Pulumi.Plain 3)))) "kind")
    as (_ & Haff & _ & _ & Hmetrics).
  split; [exact Haff | exact Hmetrics].
Defined.

Lemma nginx_chart_ports_witness :
  get "5432"
    (get "tcp"
       (@NginxIngress.values Examples.shallow_merge "ingress"
          (Given (Examples.with_tcp {[ 5432 := Examples.postgres ]}))))
  = VStr "db/postgres:5432"
  ∧ get "http"
      (get "tcp"
         (@NginxIngress.values Examples.shallow_merge "ingress"
            (Given (Examples.with_tcp {[ 5432 := Examples.postgres ]}))))
    = VUndefined
  ∧ get "53"
      (get "udp"
         (@NginxIngress.values Examples.shallow_merge "ingress"
            (Given (Examples.with_udp {[ 53 := Examples.backend "kube-system" "dns" 53 ]}))))
    = VStr "kube-system/dns:53"
  ∧ get "5432"
      (get "udp"
         (@NginxIngress.values Examples.shallow_merge "ingress"
            (Given (Examples.with_udp {[ 53 := Examples.backend "kube-system" "dns" 53 ]}))))
    = VUndefined.
Proof.
  destruct (@nginx_chart_ports Examples.shallow_merge "ingress"
              (Given (Examples.with_tcp {[ 5432 := Examples.postgres ]})) 5432)
    as (Htcp & _ & Htcp_other & _).
  destruct (@nginx_chart_ports Examples.shallow_merge "ingress"
              (Given (Examples.with_udp {[ 53 := Examples.backend "kube-system" "dns" 53 ]}))
              53)
    as (_ & Hudp & _ & Hudp_other & _).
  split; [exact Htcp|]. split; [|split; [exact Hudp|]].
  - apply Htcp_other. intros q Hq.
    cbn [chain nullish_or Examples.with_tcp NginxIngress.tcpServices] in Hq.
    apply elem_of_dom in Hq as [b Hq].
    apply lookup_singleton_Some in Hq as [<- _]. discriminate.
  - apply Hudp_other. intros q Hq.
    cbn [chain nullish_or Examples.with_udp NginxIngress.udpServices] in Hq.
    apply elem_of_dom in Hq as [b Hq].
    apply lookup_singleton_Some in Hq as [<- _]. discriminate.
Defined.

(** ** Grafana: dashboards, datasources, ingress and persistence *)
Section grafana_blocks.
Context `{provider : Random.RandomProvider}.
Implicit Types (name : string) (props : optional Grafana.GrafanaInputs).
Implicit Types (ds : list Grafana.Dashboard.GrafanaDashboard).

(** One step of the reduction writes the dashboard under its name. *)
Lemma dashboards_step (prev : gmap string value) curr :
  assign (spread ∅ (Given prev))
    [ (Grafana.Dashboard.name curr, Grafana.rest curr) ]
  = <[Grafana.Dashboard.name curr := Grafana.rest curr]> prev.
Proof.
  rewrite spread_union, (right_id_L ∅ (∪)). reflexivity.
Qed.

Lemma dashboards_fold_lookup ds n :
  foldl (λ prev curr,
           assign (spread ∅ (Given prev))
             [ (Grafana.Dashboard.name curr, Grafana.rest curr) ])
    ∅ ds !! n
  = Grafana.rest <$> last_named n ds.
Proof.
  unfold last_named.
  induction ds as [|d ds IH] using rev_ind; [done|].
  rewrite foldl_app. cbn [foldl]. rewrite dashboards_step.
  rewrite filter_app, last_app, filter_cons, filter_nil.
  destruct (decide (Grafana.Dashboard.name d = n)) as [->|Hne].
  - by rewrite lookup_insert_eq.
  - by rewrite lookup_insert_ne.
Qed.

Lemma dashboards_fold_dom ds :
  dom (foldl (λ prev curr,
                assign (spread ∅ (Given prev))
                  [ (Grafana.Dashboard.name curr, Grafana.rest curr) ])
         ∅ ds)
  = list_to_set (Grafana.Dashboard.name <$> ds).
Proof.
  induction ds as [|d ds IH] using rev_ind; [apply dom_empty_L|].
  rewrite foldl_app. cbn [foldl]. rewrite dashboards_step.
  rewrite dom_insert_L, IH, fmap_app, list_to_set_app_L. cbn. set_solver.
Qed.

Lemma rest_has_no_name d : get "name" (Grafana.rest d) = VUndefined.
Proof.
  unfold Grafana.rest, Grafana.own.
  destruct (Grafana.Dashboard.source d) as [| |? [] []|? []]; reflexivity.
Qed.

Lemma grafana_values_default_dashboards name props ds :
  props ?> Grafana.dashboards = Given ds →
  get_path [ "dashboards"; "default" ] (Grafana.values name props)
  = VObj (foldl (λ prev curr,
                   assign (spread ∅ (Given prev))
                     [ (Grafana.Dashboard.name curr, Grafana.rest curr) ])
            ∅ ds).
Proof.
  intros Hds.
  change (get_path _ _) with (get "default" (Grafana.dashboards_block props)).
  unfold Grafana.dashboards_block. by rewrite Hds.
Qed.

(** X9: the dashboards are written under [dashboards.default] by name: a
    name reads as the fields of the last dashboard of the list with that
    name (an earlier one with the same name is replaced), a name that is not
    in the list reads as undefined, the block has exactly the names of the
    list as keys, and an entry does not repeat the name. *)
Theorem grafana_dashboards_by_name name props ds n :
  props ?> Grafana.dashboards = Given ds →
  get_path [ "dashboards"; "default"; n ] (Grafana.values name props)
  = from_option Grafana.rest VUndefined (last_named n ds)
  ∧ (∃ o, get_path [ "dashboards"; "default" ] (Grafana.values name props) = VObj o
          ∧ dom o = list_to_set (Grafana.Dashboard.name <$> ds))
  ∧ get_path [ "dashboards"; "default"; n; "name" ] (Grafana.values name props)
    = VUndefined.
Proof.
  intros Hds.
  assert (get_path [ "dashboards"; "default"; n ] (Grafana.values name props)
          = from_option Grafana.rest VUndefined (last_named n ds)) as Hn.
  { change (get_path _ _)
      with (get n (get_path [ "dashboards"; "default" ] (Grafana.values name props))).
    rewrite (grafana_values_default_dashboards _ _ _ Hds). cbn [get].
    rewrite dashboards_fold_lookup. by destruct (last_named n ds). }
  split; [exact Hn|]. split.
  - eexists. split; [by apply grafana_values_default_dashboards|].
    apply dashboards_fold_dom.
  - change (get_path _ _)
      with (get "name" (get_path [ "dashboards"; "default"; n ]
                          (Grafana.values name props))).
    rewrite Hn. destruct (last_named n ds); [apply rest_has_no_name|done].
Qed.

(** X10: the provider block is written exactly when the dashboards block is,
    and then the dashboards block has the single key "default" and the
    provider list has one file provider, named "default", whose path is
    /var/lib/grafana/dashboards/default. *)
Theorem grafana_provider_matches_dashboards name props :
  (get "dashboards" (Grafana.values name props) = VUndefined
   ↔ get "dashboardProviders" (Grafana.values name props) = VUndefined)
  ∧ (get "dashboards" (Grafana.values name props) = VUndefined
     ∨ ∃ o provider,
         get "dashboards" (Grafana.values name props) = VObj o
         ∧ dom o = {[ "default" ]}
         ∧ get_path [ "dashboardProviders"; "dashboardproviders.yaml"; "providers" ]
             (Grafana.values name props)
           = VArr [ provider ]
         ∧ get "name" provider = VStr "default"
         ∧ get "type" provider = VStr "file"
         ∧ get_path [ "options"; "path" ] provider
           = VStr "/var/lib/grafana/dashboards/default").
Proof.
  unfold get_path. cbn [foldl].
  destruct (grafana_values_dashboards name props) as [-> ->].
  unfold Grafana.dashboards_block, Grafana.dashboardProviders_block.
  destruct (props ?> Grafana.dashboards) as [| |ds].
  - split; [done|by left].
  - split; [done|by left].
  - split; [done|]. right.
    eexists _, _. split; [reflexivity|].
    split; [|repeat split].
    unfold assign. cbn [foldl]. by rewrite dom_insert_L, dom_empty_L, (right_id_L ∅ (∪)).
Qed.

(** X11: the datasources document always has apiVersion 1 and a list with
    one entry per datasource, in order, each with the name, type and url of
    its datasource, proxy access, no basic authentication and not editable;
    without a datasources input the list is empty, not undefined. *)
Theorem grafana_datasources name props :
  get_path [ "datasources"; "datasources.yaml"; "apiVersion" ]
    (Grafana.values name props) = VNum 1
  ∧ ∃ entries,
      get_path [ "datasources"; "datasources.yaml"; "datasources" ]
        (Grafana.values name props) = VArr entries
      ∧ Forall2
          (λ d entry,
             get "name" entry = VStr (Grafana.DataSource.name d)
             ∧ get "type" entry
               = VStr (Grafana.DataSource.kind_tag (Grafana.DataSource.type d))
             ∧ get "url" entry = VStr (Grafana.DataSource.url d)
             ∧ get "access" entry = VStr "proxy"
             ∧ get "basicAuth" entry = VBool false
             ∧ get "editable" entry = VBool false)
          (props ?> Grafana.datasources ?? []) entries.
Proof.
  split; [reflexivity|].
  exists (Grafana.datasource_entry <$> (props ?> Grafana.datasources ?? [])).
  split.
  - change (get_path _ _)
      with (match props ?> Grafana.datasources with
            | Given ds => VArr (Grafana.datasource_entry <$> ds)
            | _ => VArr []
            end).
    by destruct (props ?> Grafana.datasources).
  - apply Forall2_fmap_r, Forall_Forall2_diag, Forall_forall.
    intros d _. repeat split.
Qed.

Lemma grafana_values_ingress name props :
  get "ingress" (Grafana.values name props) = Grafana.ingress_block name props.
Proof. reflexivity. Qed.

(** X12: for every given ingress, whatever its TLS flag and its enabled
    flag, the ingress block carries one TLS section with the hosts of the
    block and the secret "tls-grafana-" followed by the component's name;
    enabled defaults to true; without an ingress the block is only
    [{ enabled: false }].  Two components share the secret only if they share
    the name. *)
Theorem grafana_ingress_tls_section name props :
  (nullish (props ?> Grafana.ingress) →
   get "ingress" (Grafana.values name props) = obj [ ("enabled", VBool false) ])
  ∧ (∀ ing, props ?> Grafana.ingress = Given ing →
     get_path [ "ingress"; "enabled" ] (Grafana.values name props)
     = VBool (Ingress.enabled ing ?? true)
     ∧ get_path [ "ingress"; "hosts" ] (Grafana.values name props)
       = of_optional (λ hs, VArr (VStr <$> hs)) (Ingress.hosts ing)
     ∧ get_path [ "ingress"; "tls" ] (Grafana.values name props)
       = VArr [ obj [ ("hosts",
                        get_path [ "ingress"; "hosts" ] (Grafana.values name props));
                      ("secretName", VStr ("tls-grafana-" +:+ name)) ] ])
  ∧ (∀ name', "tls-grafana-" +:+ name' = "tls-grafana-" +:+ name → name' = name).
Proof.
  unfold get_path. cbn [foldl]. rewrite grafana_values_ingress.
  unfold Grafana.ingress_block.
  split; [|split].
  - by intros [-> | ->].
  - intros ing ->. repeat split.
  - intros name'. apply (inj (String.app "tls-grafana-")).
Qed.

(** X13: without a persistence input the block is only [{ enabled: false }];
    with one, the enabled flag and the storage class are written as given
    (an enabled flag left out stays undefined) and the size is the decimal
    number of gibibytes followed by "Gi", from which the number can be read
    back. *)
Theorem grafana_persistence_block name props :
  (nullish (props ?> Grafana.persistence) →
   get "persistence" (Grafana.values name props) = obj [ ("enabled", VBool false) ])
  ∧ (∀ p, props ?> Grafana.persistence = Given p →
     get_path [ "persistence"; "enabled" ] (Grafana.values name props)
     = of_optional VBool (Persistence.enabled p)
     ∧ get_path [ "persistence"; "size" ] (Grafana.values name props)
       = VStr (pretty (Persistence.sizeGB p) +:+ "Gi")
     ∧ get_path [ "persistence"; "storageClass" ] (Grafana.values name props)
       = of_optional VStr (Persistence.storageClass p))
  ∧ (∀ a b : Z, pretty a +:+ "Gi" = pretty b +:+ "Gi" → a = b).
Proof.
  unfold get_path. cbn [foldl].
  change (get "persistence" (Grafana.values name props))
    with (Grafana.persistence_block props).
  unfold Grafana.persistence_block.
  split; [|split].
  - by intros [-> | ->].
  - intros p ->. repeat split.
  - intros a b Heq. apply (f_equal String.list_ascii_of_string) in Heq.
    rewrite !chars_app in Heq. apply app_inv_tail in Heq.
    by apply chars_inj, (inj pretty) in Heq.
Qed.

(** X14: when the ingress gives a non-empty list of hosts, the server block
    of grafana.ini has the first host as domain and "https://" followed by it
    as root URL, and that host is the first one written in the ingress block;
    this holds whatever the enabled and TLS flags are. *)
Theorem grafana_server_follows_hosts name props ing host hosts :
  props ?> Grafana.ingress = Given ing →
  Ingress.hosts ing = Given (host :: hosts) →
  get_path [ "grafana.ini"; "server"; "domain" ] (Grafana.values name props)
  = VStr host
  ∧ get_path [ "grafana.ini"; "server"; "root_url" ] (Grafana.values name props)
    = VStr ("https://" +:+ host)
  ∧ get_path [ "ingress"; "hosts" ] (Grafana.values name props)
    = VArr (VStr host :: (VStr <$> hosts)).
Proof.
  intros Hing Hhosts.
  change (get_path [ "grafana.ini"; "server"; "domain" ] _)
    with (get "domain" (get_path [ "grafana.ini"; "server" ] (Grafana.values name props))).
  change (get_path [ "grafana.ini"; "server"; "root_url" ] _)
    with (get "root_url" (get_path [ "grafana.ini"; "server" ] (Grafana.values name props))).
  rewrite grafana_values_server.
  rewrite (grafana_server_first_host props host hosts)
    by (by rewrite Hing; cbn [chain]).
  split; [reflexivity|]. split; [reflexivity|].
  unfold get_path. cbn [foldl]. rewrite grafana_values_ingress.
  unfold Grafana.ingress_block. rewrite Hing.
  change (of_optional (λ hs, VArr (VStr <$> hs)) (Ingress.hosts ing)
          = VArr (VStr host :: (VStr <$> hosts))).
  by rewrite Hhosts.
Qed.

End grafana_blocks.

Lemma grafana_dashboards_by_name_witness :
  get_path [ "dashboards"; "default"; "cpu" ]
    (@Grafana.values Examples.constant_provider "grafana"
       (Given (Examples.with_dashboards
                 (Given [ Examples.dashboard "cpu" (Grafana.Dashboard.Json "{}");
                          Examples.dashboard "cpu"
                            (Grafana.Dashboard.Gnet 1860 Undefined Undefined) ]))))
  = obj [ ("gnetId", VNum 1860) ].
Proof.
  apply (@grafana_dashboards_by_name Examples.constant_provider "grafana"
           (Given (Examples.with_dashboards
                     (Given [ Examples.dashboard "cpu" (Grafana.Dashboard.Json "{}");
                              Examples.dashboard "cpu"
                                (Grafana.Dashboard.Gnet 1860 Undefined Undefined) ])))
           [ Examples.dashboard "cpu" (Grafana.Dashboard.Json "{}");
             Examples.dashboard "cpu"
               (Grafana.Dashboard.Gnet 1860 Undefined Undefined) ]
           "cpu").
  reflexivity.
Defined.

Lemma grafana_ingress_tls_section_witness :
  get "ingress" (@Grafana.values Examples.constant_provider "grafana" Undefined)
  = obj [ ("enabled", VBool false) ]
  ∧ get_path [ "ingress"; "tls" ]
      (@Grafana.values Examples.constant_provider "grafana"
         (Given (Examples.with_ingress
                   (Examples.ingress_annotated (Given false) ∅))))
    = VArr [ obj [ ("hosts", VUndefined);
                   ("secretName", VStr "tls-grafana-grafana") ] ].
Proof.
  split.
  - apply (proj1 (@grafana_ingress_tls_section
                    Examples.constant_provider "grafana" Undefined)).
    by left.
  - destruct (@grafana_ingress_tls_section Examples.constant_provider "grafana"
                (Given (Examples.with_ingress
                          (Examples.ingress_annotated (Given false) ∅))))
      as (_ & Hgiven & _).
    destruct (Hgiven (Examples.ingress_annotated (Given false) ∅) eq_refl)
      as (_ & _ & Htls).
    exact Htls.
Defined.

Lemma grafana_persistence_block_witness :
  get "persistence" (@Grafana.values Examples.constant_provider "grafana" Undefined)
  = obj [ ("enabled", VBool false) ]
  ∧ (get_path [ "persistence"; "enabled" ]
       (@Grafana.values Examples.constant_provider "grafana"
          (Given (Examples.with_persistence Examples.ten_gigabytes)))
     = VUndefined
     ∧ get_path [ "persistence"; "size" ]
         (@Grafana.values Examples.constant_provider "grafana"
            (Given (Examples.with_persistence Examples.ten_gigabytes)))
       = VStr "10Gi"
     ∧ get_path [ "persistence"; "storageClass" ]
         (@Grafana.values Examples.constant_provider "grafana"
            (Given (Examples.with_persistence Examples.ten_gigabytes)))
       = VStr "fast")
  ∧ (10 : Z) = 10.
Proof.
  destruct (@grafana_persistence_block Examples.constant_provider "grafana" Undefined)
    as (Habsent & _ & _).
  destruct (@grafana_persistence_block Examples.constant_provider "grafana"
              (Given (Examples.with_persistence Examples.ten_gigabytes)))
    as (_ & Hgiven & Hsize).
  split; [apply Habsent; by left|]. split.
  - apply (Hgiven Examples.ten_gigabytes). reflexivity.
  - apply Hsize. reflexivity.
Defined.

Lemma grafana_server_follows_hosts_witness :
  get_path [ "grafana.ini"; "server"; "domain" ]
    (@Grafana.values Examples.constant_provider "grafana"
       (Given (Examples.with_ingress
                 (Examples.ingress_hosts [ "grafana.example.com"; "g.example.com" ]))))
  = VStr "grafana.example.com"
  ∧ get_path [ "grafana.ini"; "server"; "root_url" ]
      (@Grafana.values Examples.constant_provider "grafana"
         (Given (Examples.with_ingress
                   (Examples.ingress_hosts [ "grafana.example.com"; "g.example.com" ]))))
    = VStr "https://grafana.example.com"
  ∧ get_path [ "ingress"; "hosts" ]
      (@Grafana.values Examples.constant_provider "grafana"
         (Given (Examples.with_ingress
                   (Examples.ingress_hosts [ "grafana.example.com"; "g.example.com" ]))))
    = VArr [ VStr "grafana.example.com"; VStr "g.example.com" ].
Proof.
  apply (@grafana_server_follows_hosts Examples.constant_provider "grafana"
           (Given (Examples.with_ingress
                     (Examples.ingress_hosts [ "grafana.example.com"; "g.example.com" ])))
           (Examples.ingress_hosts [ "grafana.example.com"; "g.example.com" ])
           "grafana.example.com" [ "g.example.com" ]);
    reflexivity.
Defined.

(** ** MetalLB: the pools can be read back *)
Section metallb_pools.
Implicit Types (props : optional MetalLB.MetalLBInputs).
Implicit Types (pool : MetalLB.AddressPool).

Lemma pool_entry_inj pool1 pool2 :
  MetalLB.pool_entry pool1 = MetalLB.pool_entry pool2 → pool1 = pool2.
Proof.
  intros Heq.
  destruct (pool_entry_fields pool1) as (Hname1 & _ & Haddr1 & _).
  destruct (pool_entry_fields pool2) as (Hname2 & _ & Haddr2 & _).
  rewrite Heq, Hname2 in Hname1. rewrite Heq, Haddr2 in Haddr1.
  injection Hname1 as Hname. injection Haddr1 as Haddr.
  assert (Inj (=) (=) VStr) as Hstr by (intros s1 s2 Hs; by injection Hs).
  apply (list_fmap_eq_inj VStr Hstr) in Haddr.
  destruct pool1 as [n1 [] a1], pool2 as [n2 [] a2]. by simplify_eq/=.
Qed.

(** X15: the address-pools list keeps the pools in order, one entry per
    pool, duplicated names included, and no two different pool lists are
    written as the same list: the pools can be read back from the values. *)
Theorem metallb_pools_read_back props pools :
  props ?> MetalLB.addressPools = Given pools →
  (∃ entries,
     get_path [ "configInline"; "address-pools" ] (MetalLB.values props)
     = VArr entries
     ∧ length entries = length pools
     ∧ ∀ i, entries !! i = MetalLB.pool_entry <$> pools !! i)
  ∧ (∀ props' pools',
       props' ?> MetalLB.addressPools = Given pools' →
       get_path [ "configInline"; "address-pools" ] (MetalLB.values props')
       = get_path [ "configInline"; "address-pools" ] (MetalLB.values props) →
       pools' = pools).
Proof.
  intros Hpools. rewrite !metallb_address_pools, Hpools.
  cbn [chain of_optional]. split.
  - eexists. split; [reflexivity|]. split; [apply length_fmap|].
    intros i. apply list_lookup_fmap.
  - intros props' pools' Hpools'. rewrite metallb_address_pools, Hpools'.
    cbn [chain of_optional]. intros [= Heq].
    revert Heq. apply list_fmap_eq_inj. intros pool1 pool2. apply pool_entry_inj.
Qed.

End metallb_pools.

Lemma metallb_pools_read_back_witness :
  ∃ entries,
    get_path [ "configInline"; "address-pools" ]
      (MetalLB.values
         (Given (Examples.with_pools
                   (Given [ Examples.office_pool; Examples.office_pool ]))))
    = VArr entries
    ∧ length entries = 2%nat
    ∧ ∀ i, entries !! i
           = MetalLB.pool_entry
               <$> [ Examples.office_pool; Examples.office_pool ] !! i.
Proof.
  apply (proj1 (metallb_pools_read_back
                  (Given (Examples.with_pools
                            (Given [ Examples.office_pool; Examples.office_pool ])))
                  [ Examples.office_pool; Examples.office_pool ] eq_refl)).
Defined.


(** ** Grafana: the class annotation and the keys of the annotation map *)
Section grafana_class.
Context `{provider : Random.RandomProvider}.
Implicit Types (name : string) (props : optional Grafana.GrafanaInputs).

(** X16: when the caller's annotations have no kubernetes.io/ingress.class
    entry, the class annotation is the class of the ingress, or "nginx" when
    no class is given; and the annotation map has the two computed keys and
    the caller's keys, no other. *)
Theorem grafana_class_annotation name props ing :
  props ?> Grafana.ingress = Given ing →
  (Ingress.annotations ing ?? ∅) !! "kubernetes.io/ingress.class" = None →
  get_path [ "ingress"; "annotations"; "kubernetes.io/ingress.class" ]
    (Grafana.values name props)
  = VStr (Ingress.class ing ?? "nginx")
  ∧ ∃ o, get_path [ "ingress"; "annotations" ] (Grafana.values name props) = VObj o
         ∧ dom o = {[ "kubernetes.io/ingress.class"; "kubernetes.io/tls-acme" ]}
                   ∪ dom (Ingress.annotations ing ?? ∅).
Proof.
  intros Hing Hfree. split.
  - rewrite (grafana_values_annotation _ _ _ _ Hing), ingress_annotations_lookup.
    rewrite Hfree, computed_annotations_entries.
    by rewrite lookup_insert_ne, lookup_insert_eq.
  - eexists. split; [by apply grafana_values_annotations|].
    rewrite dom_fmap_L, ingress_annotations_merge. unfold ordered_merge.
    rewrite dom_union_L, computed_annotations_entries.
    rewrite !dom_insert_L, dom_empty_L. set_solver.
Qed.

End grafana_class.

Lemma grafana_class_annotation_witness :
  get_path [ "ingress"; "annotations"; "kubernetes.io/ingress.class" ]
    (@Grafana.values Examples.constant_provider "grafana"
       (Given (Examples.with_ingress
                 (Examples.ingress_hosts [ "grafana.example.com" ]))))
  = VStr "nginx".
Proof.
  apply (@grafana_class_annotation Examples.constant_provider "grafana"
           (Given (Examples.with_ingress
                     (Examples.ingress_hosts [ "grafana.example.com" ])))
           (Examples.ingress_hosts [ "grafana.example.com" ]));
    reflexivity.
Defined.
